(** * A piece table over line blocks: shallow embedding and verification

    The development follows [src/server/services/text_block.py] and
    [src/server/services/piece_table.py].  Python integers are [Z], Python
    lists are Rocq lists accessed through Python's own indexing rules
    (negative indices count from the end, slices clamp, item access
    raises [IndexError]), strings are lists of code points, and methods
    that mutate [self] live in a state-and-exception monad whose state is
    the piece table. *)

From Stdlib Require Import ZArith NArith Bool Lia Ascii String List.
Import ListNotations.
Open Scope Z_scope.

(** ** Python values and built-in operations *)

Module Py.

(** Exceptions the two modules can raise.  [OutOfFuel] is not a Python
    exception: it marks a [while] loop of the model that was given too
    few iterations, so that no result is ever reported for a run that
    the model cut short. *)
Inductive exn : Type :=
| ValueError (msg : string)
| IndexError
| OutOfFuel.

Inductive result (A : Type) : Type :=
| Ok (a : A)
| Raise (e : exn).
Arguments Ok {A} a.
Arguments Raise {A} e.

Definition rbind {A B : Type} (r : result A) (k : A -> result B) : result B :=
  match r with
  | Ok a => k a
  | Raise e => Raise e
  end.

(** A [str] is a sequence of Unicode code points. *)
Definition str : Type := list N.

Definition str_of (s : string) : str :=
  map N_of_ascii (list_ascii_of_string s).

(** [len(l)] *)
Definition len {A : Type} (l : list A) : Z := Z.of_nat (length l).

(** Bound adjustment shared by slicing and [list.insert]: a negative
    bound counts from the end, and the outcome is clamped to [0, n]. *)
Definition clamp_bound (n i : Z) : Z :=
  if i <? 0 then Z.max (i + n) 0 else Z.min i n.

(** [l[a:b]]; never raises. *)
Definition slice {A : Type} (l : list A) (a b : Z) : list A :=
  let lo := clamp_bound (len l) a in
  let hi := clamp_bound (len l) b in
  firstn (Z.to_nat (hi - lo)) (skipn (Z.to_nat lo) l).

(** Position denoted by index [i] in a list of length [n]. *)
Definition norm_index (n i : Z) : Z := if i <? 0 then i + n else i.

(** [l[i]] *)
Definition getitem {A : Type} (l : list A) (i : Z) : result A :=
  let j := norm_index (len l) i in
  if j <? 0 then Raise IndexError
  else match nth_error l (Z.to_nat j) with
       | Some x => Ok x
       | None => Raise IndexError
       end.

Fixpoint replace_nth {A : Type} (l : list A) (k : nat) (x : A) : list A :=
  match l, k with
  | [], _ => []
  | _ :: tl, O => x :: tl
  | y :: tl, S k' => y :: replace_nth tl k' x
  end.

(** [l[i] = x] *)
Definition setitem {A : Type} (l : list A) (i : Z) (x : A) : result (list A) :=
  let j := norm_index (len l) i in
  if (j <? 0) || (len l <=? j) then Raise IndexError
  else Ok (replace_nth l (Z.to_nat j) x).

(** [l.insert(i, x)] *)
Definition insert {A : Type} (l : list A) (i : Z) (x : A) : list A :=
  let j := Z.to_nat (clamp_bound (len l) i) in
  firstn j l ++ x :: skipn j l.

Fixpoint remove_nth {A : Type} (l : list A) (k : nat) : list A :=
  match l, k with
  | [], _ => []
  | _ :: tl, O => tl
  | y :: tl, S k' => y :: remove_nth tl k'
  end.

(** [l.pop(i)], keeping the list that remains. *)
Definition pop {A : Type} (l : list A) (i : Z) : result (list A) :=
  let j := norm_index (len l) i in
  if (j <? 0) || (len l <=? j) then Raise IndexError
  else Ok (remove_nth l (Z.to_nat j)).

(** [range(a, b)] *)
Definition range (a b : Z) : list Z :=
  map (fun k => a + Z.of_nat k) (seq 0 (Z.to_nat (b - a))).

(** [sum(...)] over integers *)
Definition sum (l : list Z) : Z := fold_left Z.add l 0.

(** Line boundaries recognised by [str.splitlines]. *)
Definition is_line_boundary (c : N) : bool :=
  existsb (N.eqb c) [10; 11; 12; 13; 28; 29; 30; 133; 8232; 8233]%N.

(** [s.splitlines(keepends)]: [cur] is the line being collected.  A
    carriage return directly followed by a line feed is one terminator. *)
Fixpoint splitlines_from (keepends : bool) (cur s : str) : list str :=
  match s with
  | [] => match cur with [] => [] | _ => [cur] end
  | c :: rest =>
      if N.eqb c 13 then
        match rest with
        | c' :: rest' =>
            if N.eqb c' 10
            then (cur ++ (if keepends then [c; c'] else []))
                   :: splitlines_from keepends [] rest'
            else (cur ++ (if keepends then [c] else []))
                   :: splitlines_from keepends [] rest
        | [] => [cur ++ (if keepends then [c] else [])]
        end
      else if is_line_boundary c then
        (cur ++ (if keepends then [c] else [])) :: splitlines_from keepends [] rest
      else splitlines_from keepends (cur ++ [c]) rest
  end.

Definition splitlines (s : str) (keepends : bool) : list str :=
  splitlines_from keepends [] s.

End Py.

Import Py.

Notation "'let?' x ':=' r 'in' k" := (rbind r (fun x => k))
  (at level 10, x pattern, r at level 100, k at level 200).

(** ** text_block.py *)

Module TextBlock.

Record t : Type := mk { open : bool; lines : list str }.

(** [TextBlock(lines, is_open=True)]: [None] is the omitted argument. *)
Definition init (lines : list str) (is_open : option bool) : t :=
  {| open := match is_open with Some b => b | None => true end;
     lines := lines |}.

Definition len (self : t) : Z := Py.len (lines self).

Definition get_lines (self : t) (start length : Z) : list str :=
  slice (lines self) start (start + length).

Definition close (self : t) : t :=
  {| open := false; lines := lines self |}.

Definition is_open (self : t) : bool := open self.

Definition set_content (self : t) (content : str) : t :=
  {| open := open self; lines := splitlines content true |}.

End TextBlock.

(** ** piece_table.py *)

Module PieceTable.

(** A table entry is the three-element list [[block_id, start, length]];
    the fields are [entry[0]], [entry[1]] and [entry[2]]. *)
Record Entry : Type := mkEntry { e_block : Z; e_start : Z; e_length : Z }.

Record t : Type := mk { blocks : list TextBlock.t; table : list Entry }.

(** The constructor accepts a [str] or an already split list of lines. *)
Inductive text_arg : Type :=
| Str (s : str)
| Lines (l : list str).

Definition init (text : text_arg) : t :=
  let lines := match text with
               | Str s => splitlines s true
               | Lines l => l
               end in
  let orig_block := TextBlock.init lines (Some false) in
  {| blocks := [orig_block];
     table := [mkEntry 0 0 (Py.len lines)] |}.

(** [__len__] *)
Definition len (self : t) : Z := sum (map e_length (table self)).

(** The [for i, entry in enumerate(self.table)] loop of
    [line_to_table_index]; [tbl] is what is left to enumerate. *)
Fixpoint locate_loop (tbl : list Entry) (i block_start line : Z) : result (Z * Z) :=
  match tbl with
  | [] => Raise (ValueError "Invalid line number")
  | entry :: rest =>
      let block_length := e_length entry in
      if (line >=? block_start) && (line <? block_start + block_length)
      then Ok (i, line - block_start)
      else locate_loop rest (i + 1) (block_start + block_length) line
  end.

Definition line_to_table_index (self : t) (line : Z) : result (Z * Z) :=
  locate_loop (table self) 0 0 line.

Definition get_block_start (self : t) (block_index : Z) : Z :=
  sum (map e_length (slice (table self) 0 block_index)).

(** The [while] loop of [get_block_range]. *)
Fixpoint range_loop (fuel : nat) (tbl : list Entry) (first length_rem last_off : Z)
  : result Z :=
  if (length_rem >? 0) && (first + last_off <? Py.len tbl) then
    match fuel with
    | O => Raise OutOfFuel
    | S fuel' =>
        let? ent := getitem tbl (first + last_off) in
        range_loop fuel' tbl first (length_rem - e_length ent) (last_off + 1)
    end
  else Ok last_off.

Definition get_block_range (self : t) (start length : Z) : result (Z * Z) :=
  let? (first, offset) := line_to_table_index self start in
  let? ent := getitem (table self) first in
  let length_rem := length - (e_length ent - offset) in
  let? last_off := range_loop (List.length (table self)) (table self) first length_rem 1 in
  Ok (first, first + last_off - 1).

(** The [for i in range(first, last + 1)] loop of [get_lines]; [idxs]
    is what is left of the range. *)
Fixpoint get_lines_loop (self : t) (first offset : Z) (idxs : list Z)
    (lines : list str) (length_rem : Z) : result (list str) :=
  match idxs with
  | [] => Ok lines
  | i :: idxs' =>
      let? tab_ent := getitem (table self) i in
      let block_idx := e_block tab_ent in
      let? block := getitem (blocks self) block_idx in
      let line_s := if i =? first then e_start tab_ent + offset else e_start tab_ent in
      let line_c := if i =? first then e_length tab_ent - offset else e_length tab_ent in
      let lines := lines ++ TextBlock.get_lines block line_s (Z.min length_rem line_c) in
      get_lines_loop self first offset idxs' lines (length_rem - e_length tab_ent)
  end.

Definition get_lines (self : t) (start length : Z) : result (list str) :=
  let length := if length <? 0 then len self else length in
  let length_rem := length in
  let? (index, offset) := line_to_table_index self start in
  let? (first, last) := get_block_range self start length in
  get_lines_loop self first offset (range first (last + 1)) [] length_rem.

(** The [for block_i, start, length in self.table] loop of [stitch]. *)
Fixpoint stitch_loop (self : t) (tbl : list Entry) (stitched_file : list str)
  : result (list str) :=
  match tbl with
  | [] => Ok stitched_file
  | ent :: rest =>
      let? block := getitem (blocks self) (e_block ent) in
      stitch_loop self rest
        (stitched_file ++ TextBlock.get_lines block (e_start ent) (e_length ent))
  end.

Definition stitch (self : t) : result (list str) :=
  stitch_loop self (table self) [].

(** *** Methods that mutate the table

    A mutating method takes the table it is called on and returns the
    table as the call leaves it, together with the value returned or
    the exception raised.  An exception leaves the table as it was at
    the [raise]: whatever was mutated before stays mutated. *)

Definition M (A : Type) : Type := t -> t * result A.

Definition ret {A : Type} (a : A) : M A := fun self => (self, Ok a).

Definition raise {A : Type} (e : exn) : M A := fun self => (self, Raise e).

Definition bind {A B : Type} (m : M A) (k : A -> M B) : M B :=
  fun self =>
    match m self with
    | (self', Ok a) => k a self'
    | (self', Raise e) => (self', Raise e)
    end.

(** A call of a method that only reads [self]. *)
Definition call {A : Type} (f : t -> result A) : M A :=
  fun self => (self, f self).

(** An expression that only reads [self] and cannot raise. *)
Definition gets {A : Type} (f : t -> A) : M A :=
  fun self => (self, Ok (f self)).

Definition set_blocks (bs : list TextBlock.t) : M unit :=
  fun self => ({| blocks := bs; table := table self |}, Ok tt).

Definition set_table (tbl : list Entry) : M unit :=
  fun self => ({| blocks := blocks self; table := tbl |}, Ok tt).

Notation "x <- m ;; k" := (bind m (fun x => k))
  (at level 61, m at next level, right associativity).

(** [self.table[i][2] = v] *)
Definition table_set_length (i v : Z) : M unit :=
  ent <- call (fun self => getitem (table self) i) ;;
  tbl <- call (fun self =>
                 setitem (table self) i (mkEntry (e_block ent) (e_start ent) v)) ;;
  set_table tbl.

(** [self.table[i][1] += d] *)
Definition table_add_start (i d : Z) : M unit :=
  ent <- call (fun self => getitem (table self) i) ;;
  tbl <- call (fun self =>
                 setitem (table self) i
                   (mkEntry (e_block ent) (e_start ent + d) (e_length ent))) ;;
  set_table tbl.

(** [self.table[i][2] -= d] *)
Definition table_sub_length (i d : Z) : M unit :=
  ent <- call (fun self => getitem (table self) i) ;;
  tbl <- call (fun self =>
                 setitem (table self) i
                   (mkEntry (e_block ent) (e_start ent) (e_length ent - d))) ;;
  set_table tbl.

(** [self.table.insert(i, ent)] *)
Definition table_insert (i : Z) (ent : Entry) : M unit :=
  tbl <- gets table ;;
  set_table (insert tbl i ent).

(** [self.table.pop(i)] *)
Definition table_pop (i : Z) : M unit :=
  tbl <- call (fun self => pop (table self) i) ;;
  set_table tbl.

(** [remove_closed_blocks]; the table is left as it is (the source
    marks its update as still to be done). *)
Definition remove_closed_blocks : M (list str) :=
  stitched_file <- call stitch ;;
  bs <- call (fun self =>
                setitem (blocks self) 0 (TextBlock.init stitched_file None)) ;;
  _ <- set_blocks bs ;;
  ret stitched_file.

(** The [for block_index in range(range_start, range_end + 1)] loop of
    [open_block]; [idxs] is what is left of the range. *)
Fixpoint check_loop (self : t) (idxs : list Z) : result unit :=
  match idxs with
  | [] => Ok tt
  | block_index :: idxs' =>
      let? ent := getitem (table self) block_index in
      let? block := getitem (blocks self) (e_block ent) in
      if TextBlock.is_open block
      then Raise (ValueError "Illegal block request")
      else check_loop self idxs'
  end.

(** The [while] loop of [open_block]. *)
Fixpoint shrink_loop (fuel : nat) (length_rem cur_block_index : Z) : M unit :=
  tbl_len <- gets (fun self => Py.len (table self)) ;;
  if (length_rem >? 0) && (tbl_len >? cur_block_index) then
    match fuel with
    | O => raise OutOfFuel
    | S fuel' =>
        ent <- call (fun self => getitem (table self) cur_block_index) ;;
        let block_len := e_length ent in
        if length_rem >? block_len then
          let length_rem := length_rem - block_len in
          _ <- table_pop cur_block_index ;;
          shrink_loop fuel' length_rem cur_block_index
        else
          _ <- table_add_start cur_block_index length_rem ;;
          _ <- table_sub_length cur_block_index length_rem ;;
          ret tt
    end
  else ret tt.

Definition open_block (start length : Z) : M Z :=
  (* Check if block creation is allowed *)
  rng <- call (fun self => get_block_range self start length) ;;
  let '(range_start, range_end) := rng in
  _ <- call (fun self => check_loop self (range range_start (range_end + 1))) ;;
  doc_len <- gets len ;;
  if start + length >? doc_len then raise (ValueError "Illegal block request")
  else
    (* Create the new TextBlock object *)
    block_lines <- call (fun self => get_lines self start length) ;;
    let new_block := TextBlock.init block_lines None in
    bs <- gets blocks ;;
    _ <- set_blocks (bs ++ [new_block]) ;;
    (* Find and shrink previous containing block *)
    loc <- call (fun self => line_to_table_index self start) ;;
    let '(index, offset) := loc in
    ent <- call (fun self => getitem (table self) index) ;;
    let prev_len := e_length ent in
    _ <- table_set_length index offset ;;
    (* Insert the new block in the table *)
    n_blocks <- gets (fun self => Py.len (blocks self)) ;;
    _ <- table_insert (index + 1) (mkEntry (n_blocks - 1) 0 length) ;;
    (* Update the rest of the table *)
    let rem := prev_len - (offset + length) in
    _ <- (if rem >? 0 then
            (* Insert remainder of previous containing block after new block *)
            ent <- call (fun self => getitem (table self) index) ;;
            let n_start := e_start ent + offset + length in
            table_insert (index + 2) (mkEntry (e_block ent) n_start rem)
          else
            (* Cut or shrink the next couple blocks to make space *)
            let length_rem := -1 * rem in
            let cur_block_index := index + 2 in
            fuel <- gets (fun self => List.length (table self)) ;;
            shrink_loop fuel length_rem cur_block_index) ;;
    ret (index + 1).

(** [self.blocks[index].close()]: the block object is mutated in place,
    which here replaces the list element at the position [index]
    denotes. *)
Definition close_block (index : Z) : M unit :=
  block <- call (fun self => getitem (blocks self) index) ;;
  bs <- call (fun self => setitem (blocks self) index (TextBlock.close block)) ;;
  set_blocks bs.

End PieceTable.

(** ** Call sequences and closed forms used in the proofs *)

(** What the [while] loop of [open_block] does to the entries from
    [cur_block_index] on: entries shorter than what is left to absorb are
    dropped, and the first one that is long enough is cut at its front. *)
Fixpoint absorb (length_rem : Z) (rest : list PieceTable.Entry)
  : list PieceTable.Entry :=
  match rest with
  | [] => []
  | ent :: rest' =>
      if length_rem >? 0 then
        if length_rem >? PieceTable.e_length ent
        then absorb (length_rem - PieceTable.e_length ent) rest'
        else PieceTable.mkEntry (PieceTable.e_block ent)
               (PieceTable.e_start ent + length_rem)
               (PieceTable.e_length ent - length_rem) :: rest'
      else rest
  end.

(** The table a successful [open_block(start, length)] leaves, when
    [start] falls [offset] lines into the entry [ent] that stands between
    [pre] and [post], and the new block gets the id [new_id]. *)
Definition opened_table (pre : list PieceTable.Entry) (ent : PieceTable.Entry)
    (post : list PieceTable.Entry) (offset length new_id : Z)
  : list PieceTable.Entry :=
  let rem := PieceTable.e_length ent - (offset + length) in
  pre ++ PieceTable.mkEntry (PieceTable.e_block ent) (PieceTable.e_start ent) offset
      :: PieceTable.mkEntry new_id 0 length
      :: (if rem >? 0
          then PieceTable.mkEntry (PieceTable.e_block ent)
                 (PieceTable.e_start ent + offset + length) rem :: post
          else absorb (-1 * rem) post).

(** The calls a client issues on one table.  A call that raises is
    caught by the client, and the next call sees the table as the
    failed call left it. *)
Inductive op : Type :=
| OpenBlock (start length : Z)
| CloseBlock (index : Z).

Definition step (self : PieceTable.t) (o : op) : PieceTable.t :=
  match o with
  | OpenBlock start length => fst (PieceTable.open_block start length self)
  | CloseBlock index => fst (PieceTable.close_block index self)
  end.

Definition run (ops : list op) (self : PieceTable.t) : PieceTable.t :=
  fold_left step ops self.

Definition nonneg_request (o : op) : Prop :=
  match o with
  | OpenBlock _ length => 0 <= length
  | CloseBlock _ => True
  end.

Definition lengths (tbl : list PieceTable.Entry) : list Z :=
  map PieceTable.e_length tbl.

(** The exceptions Python itself can raise. *)
Definition python_exn (e : exn) : Prop := e <> OutOfFuel.

Definition nonneg_lengths (tbl : list PieceTable.Entry) : Prop :=
  Forall (fun ent => 0 <= PieceTable.e_length ent) tbl.

(** A document of ten distinct lines, ["0\n"] to ["9\n"]. *)
Definition ten_lines : list str :=
  map (fun k => [N.of_nat (48 + k); 10%N]) (seq 0 10).

(** States of the scenarios evaluated below, all starting from the
    ten-line document. *)
Definition table10 : PieceTable.t :=
  PieceTable.init (PieceTable.Lines ten_lines).
Definition after_open_2_3 : PieceTable.t :=
  fst (PieceTable.open_block 2 3 table10).
Definition after_close_1 : PieceTable.t :=
  fst (PieceTable.close_block 1 after_open_2_3).
Definition after_open_1_3 : PieceTable.t :=
  fst (PieceTable.open_block 1 3 after_close_1).
Definition after_open_6_2 : PieceTable.t :=
  fst (PieceTable.open_block 6 2 after_open_2_3).
Definition after_open_5_2 : PieceTable.t :=
  fst (PieceTable.open_block 5 2 table10).
Definition after_open_1_2 : PieceTable.t :=
  fst (PieceTable.open_block 1 2 after_open_5_2).

(** The lines an entry contributes to the document: its run of its
    block's lines (nothing when the block id is dangling). *)
Definition piece (bs : list TextBlock.t) (ent : PieceTable.Entry) : list str :=
  match getitem bs (PieceTable.e_block ent) with
  | Ok block =>
      TextBlock.get_lines block (PieceTable.e_start ent) (PieceTable.e_length ent)
  | Raise _ => []
  end.

(** An entry that names an existing block by a non-negative id and
    whose run lies inside that block's lines. *)
Definition entry_ok (bs : list TextBlock.t) (ent : PieceTable.Entry) : Prop :=
  0 <= PieceTable.e_block ent /\
  0 <= PieceTable.e_start ent /\
  0 <= PieceTable.e_length ent /\
  exists block,
    getitem bs (PieceTable.e_block ent) = Ok block /\
    PieceTable.e_start ent + PieceTable.e_length ent <= TextBlock.len block.

Definition well_formed (self : PieceTable.t) : Prop :=
  Forall (entry_ok (PieceTable.blocks self)) (PieceTable.table self).

Definition same_lines (b b' : TextBlock.t) : Prop :=
  TextBlock.lines b = TextBlock.lines b'.

(** How many entries the [while] loop of [get_block_range] steps over,
    [rest] being the entries from [first + last_off] on. *)
Fixpoint span_count (rest : list PieceTable.Entry) (length_rem : Z) : nat :=
  match rest with
  | [] => O
  | ent :: rest' =>
      if length_rem >? 0
      then S (span_count rest' (length_rem - PieceTable.e_length ent))
      else O
  end.

(** What the loop of [get_lines] collects from the entries [es] when
    the read starts at the first line of the first of them. *)
Fixpoint read_entries (bs : list TextBlock.t) (es : list PieceTable.Entry)
    (length_rem : Z) : list str :=
  match es with
  | [] => []
  | ent :: es' =>
      piece bs (PieceTable.mkEntry (PieceTable.e_block ent) (PieceTable.e_start ent)
                  (Z.min length_rem (PieceTable.e_length ent)))
        ++ read_entries bs es' (length_rem - PieceTable.e_length ent)
  end.


(** How a block may change over time: its lines stay, and once closed
    it stays closed. *)
Definition ages (b b' : TextBlock.t) : Prop :=
  TextBlock.lines b = TextBlock.lines b' /\
  (TextBlock.open b = false -> TextBlock.open b' = false).

(** How the block list may change over time: the blocks it has age in
    place and new blocks are appended. *)
Definition grows (bs bs' : list TextBlock.t) : Prop :=
  exists kept added, bs' = kept ++ added /\ Forall2 ages bs kept.





(** ** Facts about the Python list operations *)

Section PyFacts.

Context {A : Type}.

Lemma len_nonneg (l : list A) : 0 <= len l.
Proof. unfold len. lia. Qed.

Lemma len_app (l1 l2 : list A) : len (l1 ++ l2) = len l1 + len l2.
Proof. unfold len. rewrite length_app. lia. Qed.

Lemma len_cons (x : A) (l : list A) : len (x :: l) = 1 + len l.
Proof. unfold len. simpl length. lia. Qed.

Lemma norm_index_len (l1 l2 : list A) :
  norm_index (len (l1 ++ l2)) (len l1) = len l1.
Proof.
  unfold norm_index. pose proof (len_nonneg l1).
  destruct (len l1 <? 0) eqn:E; [apply Z.ltb_lt in E; lia | reflexivity].
Qed.

Lemma getitem_mid (pre post : list A) (x : A) :
  getitem (pre ++ x :: post) (len pre) = Ok x.
Proof.
  unfold getitem. rewrite norm_index_len.
  pose proof (len_nonneg pre) as Hn.
  destruct (len pre <? 0) eqn:E; [apply Z.ltb_lt in E; lia |].
  unfold len. rewrite Nat2Z.id, nth_error_app2 by lia.
  rewrite Nat.sub_diag. reflexivity.
Qed.

Lemma replace_nth_mid (pre post : list A) (x y : A) :
  replace_nth (pre ++ x :: post) (length pre) y = pre ++ y :: post.
Proof. induction pre as [|a pre IH]; simpl; [reflexivity | now rewrite IH]. Qed.

Lemma remove_nth_mid (pre post : list A) (x : A) :
  remove_nth (pre ++ x :: post) (length pre) = pre ++ post.
Proof. induction pre as [|a pre IH]; simpl; [reflexivity | now rewrite IH]. Qed.

Lemma in_range_mid (pre post : list A) (x : A) :
  (len pre <? 0) || (len (pre ++ x :: post) <=? len pre) = false.
Proof.
  rewrite len_app, len_cons.
  pose proof (len_nonneg pre). pose proof (len_nonneg post).
  apply orb_false_iff. split; [apply Z.ltb_ge | apply Z.leb_gt]; lia.
Qed.

Lemma setitem_mid (pre post : list A) (x y : A) :
  setitem (pre ++ x :: post) (len pre) y = Ok (pre ++ y :: post).
Proof.
  unfold setitem. rewrite norm_index_len, in_range_mid.
  unfold len. now rewrite Nat2Z.id, replace_nth_mid.
Qed.

Lemma pop_mid (pre post : list A) (x : A) :
  pop (pre ++ x :: post) (len pre) = Ok (pre ++ post).
Proof.
  unfold pop. rewrite norm_index_len, in_range_mid.
  unfold len. now rewrite Nat2Z.id, remove_nth_mid.
Qed.

Lemma insert_mid (pre post : list A) (x : A) :
  insert (pre ++ post) (len pre) x = pre ++ x :: post.
Proof.
  unfold insert, clamp_bound. rewrite len_app.
  pose proof (len_nonneg pre). pose proof (len_nonneg post).
  destruct (len pre <? 0) eqn:E; [apply Z.ltb_lt in E; lia |].
  rewrite Z.min_l by lia. unfold len. rewrite Nat2Z.id.
  rewrite firstn_app, Nat.sub_diag, firstn_all, firstn_O, app_nil_r.
  rewrite skipn_app, Nat.sub_diag, skipn_all. reflexivity.
Qed.

End PyFacts.

Lemma getitem_raises {A : Type} (l : list A) (i : Z) (e : exn) :
  getitem l i = Raise e -> e = IndexError.
Proof.
  unfold getitem. destruct (_ <? 0); [now intros [= <-] |].
  destruct (nth_error _ _); [discriminate | now intros [= <-]].
Qed.

Lemma getitem_in_range {A : Type} (l : list A) (i : Z) :
  0 <= i < Py.len l -> exists x, getitem l i = Ok x.
Proof.
  intro H. unfold getitem, norm_index.
  destruct (i <? 0) eqn:E; [apply Z.ltb_lt in E; lia |]. rewrite E.
  destruct (nth_error l (Z.to_nat i)) eqn:N; [eauto |].
  apply nth_error_None in N. unfold Py.len in H. lia.
Qed.

Lemma sum_acc (l : list Z) (a : Z) : fold_left Z.add l a = a + sum l.
Proof.
  unfold sum. revert a.
  induction l as [|x l IH]; intro a; simpl; [lia |].
  rewrite (IH (a + x)), (IH x). lia.
Qed.

Lemma sum_cons (x : Z) (l : list Z) : sum (x :: l) = x + sum l.
Proof. unfold sum at 1. simpl. now rewrite sum_acc. Qed.

Lemma sum_app (l1 l2 : list Z) : sum (l1 ++ l2) = sum l1 + sum l2.
Proof.
  induction l1 as [|x l1 IH]; simpl.
  - reflexivity.
  - rewrite !sum_cons, IH. lia.
Qed.

(** ** Facts about the table operations *)

Import PieceTable.

Lemma locate_loop_ok (tbl : list Entry) :
  forall i block_start line idx off,
    locate_loop tbl i block_start line = Ok (idx, off) ->
    exists pre ent post,
      tbl = pre ++ ent :: post /\
      idx = i + Py.len pre /\
      off = line - (block_start + sum (lengths pre)) /\
      0 <= off < e_length ent.
Proof.
  induction tbl as [|entry rest IH]; intros i bs line idx off H; simpl in H.
  - discriminate.
  - destruct ((line >=? bs) && (line <? bs + e_length entry)) eqn:G.
    + injection H as <- <-.
      apply andb_true_iff in G. destruct G as [G1 G2].
      apply Z.geb_le in G1. apply Z.ltb_lt in G2.
      exists [], entry, rest. cbn. repeat split; lia.
    + apply IH in H. destruct H as (pre & ent & post & -> & -> & -> & Hb).
      exists (entry :: pre), ent, post.
      rewrite len_cons. cbn [lengths map]. rewrite sum_cons.
      fold (lengths pre). repeat split; try lia.
Qed.

Ltac m_step :=
  cbv beta iota delta [bind call gets set_table set_blocks ret raise
                       table_pop table_add_start table_sub_length
                       table_set_length table_insert];
  simpl table; simpl blocks.

Ltac m_run :=
  repeat (progress (m_step; rewrite ?getitem_mid, ?setitem_mid, ?pop_mid)).

Lemma shrink_loop_absorb (rest : list Entry) :
  forall fuel length_rem pre bs,
    (List.length rest <= fuel)%nat ->
    shrink_loop fuel length_rem (Py.len pre) {| blocks := bs; table := pre ++ rest |}
    = ({| blocks := bs; table := pre ++ absorb length_rem rest |}, Ok tt).
Proof.
  induction rest as [|ent rest IH]; intros fuel r pre bs Hf.
  - assert (G : (Py.len (pre ++ []) >? Py.len pre) = false).
    { rewrite app_nil_r, Z.gtb_ltb. apply Z.ltb_irrefl. }
    destruct fuel; cbn -[Py.len]; rewrite G, andb_false_r; reflexivity.
  - destruct fuel as [|fuel]; [simpl in Hf; lia |].
    cbn -[Py.len getitem pop setitem].
    assert (G : (Py.len (pre ++ ent :: rest) >? Py.len pre) = true).
    { rewrite len_app, len_cons, Z.gtb_ltb. apply Z.ltb_lt.
      pose proof (len_nonneg rest). lia. }
    rewrite G, andb_true_r.
    destruct (r >? 0); [| reflexivity].
    m_step. rewrite getitem_mid. m_step.
    destruct (r >? e_length ent).
    + m_step. rewrite pop_mid. apply IH. simpl in Hf. lia.
    + m_step. rewrite getitem_mid. m_step. rewrite setitem_mid. m_step.
      rewrite getitem_mid. m_step. rewrite setitem_mid. m_step.
      reflexivity.
Qed.


Lemma insert_after_one {A : Type} (pre post : list A) (x y : A) :
  insert (pre ++ x :: post) (Py.len pre + 1) y = pre ++ x :: y :: post.
Proof.
  replace (Py.len pre + 1) with (Py.len (pre ++ [x])) by (rewrite len_app; reflexivity).
  replace (pre ++ x :: post) with ((pre ++ [x]) ++ post) by (now rewrite <- app_assoc).
  rewrite insert_mid, <- app_assoc. reflexivity.
Qed.

Lemma insert_after_two {A : Type} (pre post : list A) (x y z : A) :
  insert (pre ++ x :: y :: post) (Py.len pre + 2) z = pre ++ x :: y :: z :: post.
Proof.
  replace (Py.len pre + 2) with (Py.len (pre ++ [x; y])) by (rewrite len_app; reflexivity).
  replace (pre ++ x :: y :: post) with ((pre ++ [x; y]) ++ post) by (now rewrite <- app_assoc).
  rewrite insert_mid, <- app_assoc. reflexivity.
Qed.

Lemma shrink_loop_after_two (pre post : list Entry) (x y : Entry) (r : Z) bs :
  shrink_loop (List.length (pre ++ x :: y :: post)) r (Py.len pre + 2)
    {| blocks := bs; table := pre ++ x :: y :: post |}
  = ({| blocks := bs; table := pre ++ x :: y :: absorb r post |}, Ok tt).
Proof.
  replace (Py.len pre + 2) with (Py.len (pre ++ [x; y])) by (rewrite len_app; reflexivity).
  replace (pre ++ x :: y :: post) with ((pre ++ [x; y]) ++ post) by (now rewrite <- app_assoc).
  rewrite shrink_loop_absorb by (rewrite length_app; lia).
  rewrite <- app_assoc. reflexivity.
Qed.

(** The loops are given enough fuel: [get_block_range] returns whenever
    [line_to_table_index] does, and none of the read-only methods can
    report [OutOfFuel]. *)

Lemma range_loop_total (tbl : list Entry) (first : Z) :
  forall fuel length_rem last_off,
    0 <= first + last_off ->
    Py.len tbl - (first + last_off) <= Z.of_nat fuel ->
    exists last_off',
      range_loop fuel tbl first length_rem last_off = Ok last_off' /\
      last_off <= last_off' /\
      first + last_off' <= Z.max (Py.len tbl) (first + last_off).
Proof.
  induction fuel as [|fuel IH]; intros length_rem last_off H0 Hf; cbn [range_loop].
  - destruct ((length_rem >? 0) && (first + last_off <? Py.len tbl)) eqn:G.
    + apply andb_true_iff in G. destruct G as [_ G]. apply Z.ltb_lt in G. lia.
    + exists last_off. repeat split; lia.
  - destruct ((length_rem >? 0) && (first + last_off <? Py.len tbl)) eqn:G.
    + apply andb_true_iff in G. destruct G as [_ G]. apply Z.ltb_lt in G.
      destruct (getitem_in_range tbl (first + last_off)) as [ent ->]; [lia |].
      cbn [rbind].
      destruct (IH (length_rem - e_length ent) (last_off + 1)) as (r & -> & Hr1 & Hr2);
        [lia | lia |].
      exists r. repeat split; lia.
    + exists last_off. repeat split; lia.
Qed.

Lemma get_block_range_total (self : t) (start length first offset : Z) :
  line_to_table_index self start = Ok (first, offset) ->
  exists last,
    get_block_range self start length = Ok (first, last) /\
    first <= last < Py.len (table self).
Proof.
  intro Hl. unfold get_block_range. rewrite Hl. cbn [rbind].
  unfold line_to_table_index in Hl. apply locate_loop_ok in Hl.
  destruct Hl as (pre & ent & post & Ht & Hi & _ & _).
  rewrite Z.add_0_l in Hi. subst first. rewrite Ht, getitem_mid. cbn [rbind].
  pose proof (len_nonneg pre) as Hp.
  destruct (range_loop_total (pre ++ ent :: post) (Py.len pre)
              (List.length (pre ++ ent :: post))
              (length - (e_length ent - offset)) 1)
    as (r & Hr & Hr1 & Hr2); [lia | unfold Py.len; lia |].
  rewrite Hr. cbn [rbind]. eexists. split; [reflexivity |].
  rewrite len_app, len_cons in *. pose proof (len_nonneg post). lia.
Qed.

Lemma locate_loop_raises (tbl : list Entry) :
  forall i block_start line e,
    locate_loop tbl i block_start line = Raise e ->
    e = ValueError "Invalid line number".
Proof.
  induction tbl as [|entry rest IH]; intros i bs line e; cbn [locate_loop].
  - now intros [= <-].
  - destruct (_ && _); [discriminate | apply IH].
Qed.

Lemma get_block_range_raises (self : t) (start length : Z) (e : exn) :
  get_block_range self start length = Raise e ->
  e = ValueError "Invalid line number".
Proof.
  intro H.
  destruct (line_to_table_index self start) as [[first offset]|e'] eqn:Hl.
  - destruct (get_block_range_total self start length first offset Hl) as (last & E & _).
    congruence.
  - unfold get_block_range in H. rewrite Hl in H. cbn [rbind] in H.
    injection H as <-. unfold line_to_table_index in Hl.
    now apply locate_loop_raises in Hl.
Qed.

Lemma check_loop_raises (self : t) (idxs : list Z) (e : exn) :
  check_loop self idxs = Raise e -> python_exn e.
Proof.
  induction idxs as [|i idxs IH]; cbn [check_loop]; [discriminate |].
  destruct (getitem (table self) i) as [ent|e1] eqn:G1; cbn [rbind].
  - destruct (getitem (blocks self) (e_block ent)) as [b|e2] eqn:G2; cbn [rbind].
    + destruct (TextBlock.is_open b); [intros [= <-]; discriminate | exact IH].
    + intros [= <-]. apply getitem_raises in G2. subst. discriminate.
  - intros [= <-]. apply getitem_raises in G1. subst. discriminate.
Qed.

Lemma get_lines_loop_raises (self : t) (first offset : Z) (idxs : list Z) :
  forall lines length_rem e,
    get_lines_loop self first offset idxs lines length_rem = Raise e ->
    python_exn e.
Proof.
  induction idxs as [|i idxs IH]; intros lines length_rem e; cbn [get_lines_loop];
    [discriminate |].
  destruct (getitem (table self) i) as [ent|e1] eqn:G1; cbn [rbind].
  - destruct (getitem (blocks self) (e_block ent)) as [b|e2] eqn:G2; cbn [rbind].
    + apply IH.
    + intros [= <-]. apply getitem_raises in G2. subst. discriminate.
  - intros [= <-]. apply getitem_raises in G1. subst. discriminate.
Qed.

Lemma get_lines_raises (self : t) (start length : Z) (e : exn) :
  get_lines self start length = Raise e -> python_exn e.
Proof.
  unfold get_lines.
  destruct (line_to_table_index self start) as [[index offset]|e1] eqn:Hl; cbn [rbind].
  - destruct (get_block_range self start _) as [[first last]|e2] eqn:Hr; cbn [rbind].
    + apply get_lines_loop_raises.
    + intros [= <-]. apply get_block_range_raises in Hr. subst. discriminate.
  - intros [= <-]. unfold line_to_table_index in Hl.
    apply locate_loop_raises in Hl. subst. discriminate.
Qed.

(** The two outcomes of [open_block]: it raises a Python exception and
    leaves the table as it was, or it returns the table position after
    the entry that contains [start] and leaves the table described by
    [opened_table]. *)
Lemma open_block_cases (start length : Z) (self : t) :
  (exists e, python_exn e /\ open_block start length self = (self, Raise e)) \/
  (exists pre ent post offset block_lines,
      table self = pre ++ ent :: post /\
      start = sum (lengths pre) + offset /\
      0 <= offset < e_length ent /\
      start + length <= len self /\
      get_lines self start length = Ok block_lines /\
      open_block start length self
      = ({| blocks := blocks self ++ [TextBlock.init block_lines None];
            table := opened_table pre ent post offset length (Py.len (blocks self)) |},
         Ok (Py.len pre + 1))).
Proof.
  unfold open_block. m_step.
  destruct (get_block_range self start length) as [[range_start range_end]|e] eqn:Hr.
  2:{ left. exists e. split; [| reflexivity].
      apply get_block_range_raises in Hr. subst. discriminate. }
  assert (Hl : exists loc, line_to_table_index self start = Ok loc).
  { unfold get_block_range in Hr.
    destruct (line_to_table_index self start); [eauto | discriminate]. }
  destruct Hl as [[index offset] Hl].
  destruct (check_loop self _) as [[]|e] eqn:Hc.
  2:{ left. exists e. split; [now apply check_loop_raises in Hc | reflexivity]. }
  destruct (start + length >? len self) eqn:Hb.
  { left. eexists. split; [| reflexivity]. discriminate. }
  destruct (get_lines self start length) as [block_lines|e] eqn:Hg.
  2:{ left. exists e. split; [now apply get_lines_raises in Hg | reflexivity]. }
  right.
  unfold line_to_table_index in *. cbn [table].
  destruct self as [bs tbl]. cbn [table blocks] in *.
  rewrite Hl.
  apply locate_loop_ok in Hl.
  destruct Hl as (pre & ent & post & Htbl & Hidx & Hoff & Hrange).
  rewrite Z.add_0_l in Hidx, Hoff. subst tbl index offset.
  exists pre, ent, post, (start - sum (lengths pre)), block_lines.
  rewrite Z.gtb_ltb in Hb. apply Z.ltb_ge in Hb.
  repeat split; try lia.
  m_run. rewrite insert_after_one.
  replace (Py.len (bs ++ [TextBlock.init block_lines None]) - 1) with (Py.len bs)
    by (rewrite len_app; unfold Py.len; simpl; lia).
  unfold opened_table. cbn [e_length e_block e_start].
  destruct (e_length ent - (start - sum (lengths pre) + length) >? 0).
  - m_run. rewrite insert_after_two. reflexivity.
  - m_run. rewrite shrink_loop_after_two. reflexivity.
Qed.

Lemma lengths_app (l1 l2 : list Entry) : lengths (l1 ++ l2) = lengths l1 ++ lengths l2.
Proof. apply map_app. Qed.

Lemma absorb_sum (rest : list Entry) :
  forall r, 0 <= r <= sum (lengths rest) ->
            sum (lengths (absorb r rest)) = sum (lengths rest) - r.
Proof.
  induction rest as [|ent rest IH]; intros r Hr.
  - cbn in *. lia.
  - cbn [absorb]. cbn [lengths map] in *. fold (lengths rest) in *.
    rewrite sum_cons in *.
    destruct (r >? 0) eqn:G0.
    + destruct (r >? e_length ent) eqn:G1.
      * rewrite Z.gtb_ltb in G1. apply Z.ltb_lt in G1.
        rewrite IH by lia. lia.
      * cbn [lengths map e_length]. fold (lengths rest). rewrite sum_cons. lia.
    + rewrite Z.gtb_ltb in G0. apply Z.ltb_ge in G0.
      cbn [lengths map]. fold (lengths rest). rewrite sum_cons. lia.
Qed.

Lemma opened_table_sum pre ent post offset length new_id :
  offset + length <= e_length ent + sum (lengths post) ->
  sum (lengths (opened_table pre ent post offset length new_id))
  = sum (lengths (pre ++ ent :: post)).
Proof.
  intro Hb. unfold opened_table.
  rewrite !lengths_app, !sum_app. cbn [lengths map e_length].
  fold (lengths post). rewrite !sum_cons.
  destruct (e_length ent - (offset + length) >? 0) eqn:G.
  - cbn [lengths map e_length]. fold (lengths post). rewrite sum_cons. lia.
  - rewrite Z.gtb_ltb in G. apply Z.ltb_ge in G.
    match goal with |- context [absorb ?r post] => fold (lengths (absorb r post)) end.
    rewrite absorb_sum by lia. lia.
Qed.

Lemma open_block_keeps_len (start length : Z) (self : t) :
  len (fst (open_block start length self)) = len self.
Proof.
  destruct (open_block_cases start length self)
    as [(e & _ & H) | (pre & ent & post & offset & block_lines & Ht & Hs & Ho & Hb & _ & H)];
    rewrite H; cbn [fst]; [reflexivity |].
  unfold len in *. cbn [table]. rewrite Ht in *.
  apply opened_table_sum.
  rewrite lengths_app, sum_app in Hb. cbn [lengths map] in Hb.
  fold (lengths post) in Hb. rewrite sum_cons in Hb. lia.
Qed.

Lemma close_block_cases (index : Z) (self : t) :
  (close_block index self = (self, Raise IndexError)) \/
  (exists bs, close_block index self = ({| blocks := bs; table := table self |}, Ok tt)).
Proof.
  unfold close_block. m_step.
  destruct (getitem (blocks self) index) as [b|e] eqn:G.
  - destruct (setitem (blocks self) index (TextBlock.close b)) as [bs|e] eqn:S.
    + right. eauto.
    + left. unfold setitem in S. destruct (_ || _); [injection S as <-; reflexivity | discriminate].
  - left. unfold getitem in G. destruct (_ <? 0); [injection G as <-; reflexivity|].
    destruct (nth_error _ _); [discriminate | injection G as <-; reflexivity].
Qed.

Lemma close_block_keeps_table (index : Z) (self : t) :
  table (fst (close_block index self)) = table self.
Proof.
  destruct (close_block_cases index self) as [H | [bs H]]; rewrite H; reflexivity.
Qed.

Lemma step_keeps_len (self : t) (o : op) : len (step self o) = len self.
Proof.
  destruct o as [start length | index]; cbn [step].
  - apply open_block_keeps_len.
  - unfold len. now rewrite close_block_keeps_table.
Qed.

Lemma run_keeps_len (ops : list op) : forall self, len (run ops self) = len self.
Proof.
  induction ops as [|o ops IH]; intro self; cbn [run fold_left].
  - reflexivity.
  - fold (run ops (step self o)). rewrite IH. apply step_keeps_len.
Qed.

(** C3: on a table constructed from a list of [N] lines, after every call
    of any sequence of [open_block] and [close_block] calls (after each
    prefix [firstn k ops] of the sequence), the sum of the entries'
    length fields, which is what [__len__] returns, is [N]. *)
Theorem length_invariant (lines : list str) (ops : list op) (k : nat) :
  len (run (firstn k ops) (init (Lines lines))) = Py.len lines.
Proof.
  rewrite run_keeps_len. unfold len, init. cbn. lia.
Qed.

Lemma absorb_nonneg (rest : list Entry) :
  forall r, nonneg_lengths rest -> nonneg_lengths (absorb r rest).
Proof.
  unfold nonneg_lengths.
  induction rest as [|ent rest IH]; intros r H; cbn [absorb].
  - constructor.
  - inversion H as [|? ? He Hrest]; subst.
    destruct (r >? 0); [| assumption].
    destruct (r >? e_length ent) eqn:G.
    + now apply IH.
    + rewrite Z.gtb_ltb in G. apply Z.ltb_ge in G.
      constructor; [cbn; lia | assumption].
Qed.

Lemma opened_table_nonneg pre ent post offset length new_id :
  nonneg_lengths (pre ++ ent :: post) ->
  0 <= offset -> 0 <= length ->
  nonneg_lengths (opened_table pre ent post offset length new_id).
Proof.
  unfold nonneg_lengths, opened_table. intros H Ho Hl.
  apply Forall_app in H. destruct H as [Hpre H].
  inversion H as [|? ? He Hpost]; subst.
  apply Forall_app. split; [assumption |].
  constructor; [cbn; lia |]. constructor; [cbn; lia |].
  destruct (e_length ent - (offset + length) >? 0) eqn:G.
  - rewrite Z.gtb_ltb in G. apply Z.ltb_lt in G.
    constructor; [cbn; lia | assumption].
  - now apply absorb_nonneg.
Qed.

Lemma step_keeps_nonneg (self : t) (o : op) :
  nonneg_request o -> nonneg_lengths (table self) ->
  nonneg_lengths (table (step self o)).
Proof.
  destruct o as [start length | index]; cbn [step nonneg_request]; intros Hreq H.
  - destruct (open_block_cases start length self)
      as [(e & _ & E) | (pre & ent & post & offset & block_lines & Ht & Hs & Ho & Hb & _ & E)];
      rewrite E; cbn [fst table]; [assumption |].
    rewrite Ht in H. apply opened_table_nonneg; [assumption | lia | assumption].
  - now rewrite close_block_keeps_table.
Qed.

(** C7, amended: after construction and after every call of a sequence of
    [open_block] and [close_block] calls whose requested lengths are not
    negative, every entry of the table has a length of at least 0. *)
Theorem entry_lengths_nonneg (text : text_arg) (ops : list op) :
  Forall nonneg_request ops ->
  nonneg_lengths (table (run ops (init text))).
Proof.
  assert (G : forall self, Forall nonneg_request ops ->
                           nonneg_lengths (table self) ->
                           nonneg_lengths (table (run ops self))).
  { induction ops as [|o ops IH]; intros self Hops H; cbn [run fold_left].
    - assumption.
    - inversion Hops; subst. fold (run ops (step self o)).
      apply IH; [assumption |]. now apply step_keeps_nonneg. }
  intro Hops. apply G; [assumption |].
  constructor; [cbn; apply len_nonneg | constructor].
Qed.

(** [open_block] always comes back with a result or a Python exception:
    its loops never run out of fuel. *)
Lemma open_block_total (start length : Z) (self : t) :
  exists self' r,
    open_block start length self = (self', r) /\ r <> Raise OutOfFuel.
Proof.
  destruct (open_block_cases start length self)
    as [(e & He & E) | (pre & ent & post & offset & block_lines & _ & _ & _ & _ & _ & E)];
    rewrite E; do 2 eexists; (split; [reflexivity |]).
  - intros [= ->]. now apply He.
  - discriminate.
Qed.

(** C5: when [open_block(start, length)] raises, the table it leaves is the
    table it was called on, blocks list and entry list alike. *)
Theorem open_block_failure_leaves_table (start length : Z) (self self' : t) (e : exn) :
  open_block start length self = (self', Raise e) -> self' = self.
Proof.
  intro H.
  destruct (open_block_cases start length self)
    as [(e' & _ & E) | (pre & ent & post & offset & block_lines & _ & _ & _ & _ & _ & E)];
    rewrite E in H.
  - now injection H as <- _.
  - discriminate.
Qed.

Lemma getitem_at {A : Type} (pre post : list A) (x : A) (i : Z) :
  norm_index (Py.len (pre ++ x :: post)) i = Py.len pre ->
  getitem (pre ++ x :: post) i = Ok x.
Proof.
  intro H. unfold getitem. rewrite H.
  pose proof (len_nonneg pre) as Hn.
  destruct (Py.len pre <? 0) eqn:E; [apply Z.ltb_lt in E; lia |].
  unfold Py.len. rewrite Nat2Z.id, nth_error_app2 by lia.
  rewrite Nat.sub_diag. reflexivity.
Qed.

Lemma setitem_at {A : Type} (pre post : list A) (x y : A) (i : Z) :
  norm_index (Py.len (pre ++ x :: post)) i = Py.len pre ->
  setitem (pre ++ x :: post) i y = Ok (pre ++ y :: post).
Proof.
  intro H. unfold setitem. rewrite H, in_range_mid.
  unfold Py.len. now rewrite Nat2Z.id, replace_nth_mid.
Qed.

Lemma getitem_out_of_range {A : Type} (l : list A) (i : Z) :
  i < - Py.len l \/ Py.len l <= i -> getitem l i = Raise IndexError.
Proof.
  intro H. unfold getitem, norm_index. pose proof (len_nonneg l) as Hn.
  destruct (i <? 0) eqn:E.
  - apply Z.ltb_lt in E.
    destruct (i + Py.len l <? 0) eqn:F; [reflexivity |].
    apply Z.ltb_ge in F. lia.
  - cbv zeta. rewrite E. apply Z.ltb_ge in E.
    destruct (nth_error l (Z.to_nat i)) eqn:N; [| reflexivity].
    assert (Hlt : (Z.to_nat i < List.length l)%nat)
      by (apply nth_error_Some; congruence).
    unfold Py.len in *. lia.
Qed.

(** C9, amended: with [n] blocks in the list, [close_block(index)] raises
    [IndexError], leaving the table as it was, exactly when [index] is
    outside [-n, n); otherwise it closes the block at position [index],
    or at position [n + index] for a negative [index], and changes
    neither the entry list nor any other block. *)
Theorem close_block_spec (self : t) (index : Z) :
  let n := Py.len (blocks self) in
  (index < - n \/ n <= index -> close_block index self = (self, Raise IndexError)) /\
  (- n <= index < n ->
   exists pre b post,
     blocks self = pre ++ b :: post /\
     Py.len pre = norm_index n index /\
     close_block index self
     = ({| blocks := pre ++ TextBlock.close b :: post; table := table self |}, Ok tt)).
Proof.
  intro n. split; intro H.
  - unfold close_block. m_step. now rewrite getitem_out_of_range.
  - assert (Hj : 0 <= norm_index n index < n).
    { unfold norm_index. destruct (index <? 0) eqn:E;
        [apply Z.ltb_lt in E | apply Z.ltb_ge in E]; lia. }
    destruct (nth_error (blocks self) (Z.to_nat (norm_index n index))) as [b|] eqn:N.
    + apply nth_error_split in N. destruct N as (pre & post & Hb & Hl).
      exists pre, b, post.
      assert (Hp : Py.len pre = norm_index n index) by (unfold Py.len; lia).
      repeat split; [assumption | assumption |].
      unfold close_block. m_step. subst n. rewrite Hb in *.
      rewrite getitem_at by (symmetry; exact Hp). m_step.
      rewrite setitem_at by (symmetry; exact Hp). reflexivity.
    + apply nth_error_None in N. unfold n, Py.len in *. lia.
Qed.

(** C8, amended: for [start] and [length] that are not negative, the slice
    operation of a block never fails; it returns the run of at most
    [length] lines that begins at [start], cut short at the end of the
    block, which is the requested run of exactly [length] lines when
    [start + length] is within the block's length. *)
Theorem get_lines_clamps (self : TextBlock.t) (start length : Z) :
  0 <= start -> 0 <= length ->
  TextBlock.get_lines self start length
  = firstn (Z.to_nat length) (skipn (Z.to_nat start) (TextBlock.lines self)) /\
  (start + length <= TextBlock.len self ->
   Py.len (TextBlock.get_lines self start length) = length).
Proof.
  intros Hs Hl. unfold TextBlock.get_lines, TextBlock.len.
  generalize (TextBlock.lines self) as l. intro l.
  assert (E : slice l start (start + length)
              = firstn (Z.to_nat length) (skipn (Z.to_nat start) l)).
  { unfold slice, clamp_bound. pose proof (len_nonneg l) as Hn.
    destruct (start <? 0) eqn:E1; [apply Z.ltb_lt in E1; lia |].
    destruct (start + length <? 0) eqn:E2; [apply Z.ltb_lt in E2; lia |].
    destruct (Z_le_gt_dec start (Py.len l)) as [Hle | Hgt].
    - rewrite (Z.min_l start) by lia.
      pose proof (length_skipn (Z.to_nat start) l) as Hr.
      revert Hr. generalize (skipn (Z.to_nat start) l) as rest. intros rest Hr.
      destruct (Z_le_gt_dec (start + length) (Py.len l)) as [Hle2 | Hgt2].
      + rewrite Z.min_l by lia. f_equal. lia.
      + rewrite Z.min_r by lia.
        rewrite !firstn_all2; [reflexivity | |]; unfold Py.len in *; lia.
    - rewrite !Z.min_r by lia. rewrite Z.sub_diag.
      rewrite !skipn_all2 by (unfold Py.len in *; lia).
      now rewrite !firstn_nil. }
  split; [exact E |].
  intro Hb. rewrite E. unfold Py.len in *.
  rewrite length_firstn, length_skipn. lia.
Qed.

Lemma entry_lengths_nonneg_witness :
  Forall nonneg_request [OpenBlock 0 2; CloseBlock 1; OpenBlock 1 3] /\
  nonneg_lengths
    (table (run [OpenBlock 0 2; CloseBlock 1; OpenBlock 1 3] (init (Lines ten_lines)))).
Proof.
  assert (H : Forall nonneg_request [OpenBlock 0 2; CloseBlock 1; OpenBlock 1 3])
    by (repeat constructor; simpl; lia).
  split; [exact H | apply (entry_lengths_nonneg (Lines ten_lines) _ H)].
Defined.

Lemma open_block_failure_witness :
  open_block 3 2 after_open_2_3
  = (fst (open_block 3 2 after_open_2_3), Raise (ValueError "Illegal block request")) /\
  fst (open_block 3 2 after_open_2_3) = after_open_2_3.
Proof.
  assert (H : open_block 3 2 after_open_2_3
              = (fst (open_block 3 2 after_open_2_3),
                 Raise (ValueError "Illegal block request")))
    by (vm_compute; reflexivity).
  split; [exact H | exact (open_block_failure_leaves_table 3 2 _ _ _ H)].
Defined.

Lemma close_block_spec_witness :
  - Py.len (blocks after_open_2_3) <= -1 < Py.len (blocks after_open_2_3) /\
  exists pre b post,
    blocks after_open_2_3 = pre ++ b :: post /\
    Py.len pre = norm_index (Py.len (blocks after_open_2_3)) (-1) /\
    close_block (-1) after_open_2_3
    = ({| blocks := pre ++ TextBlock.close b :: post;
          table := table after_open_2_3 |}, Ok tt).
Proof.
  assert (H : - Py.len (blocks after_open_2_3) <= -1 < Py.len (blocks after_open_2_3))
    by (vm_compute; split; [discriminate | reflexivity]).
  split; [exact H | exact (proj2 (close_block_spec after_open_2_3 (-1)) H)].
Defined.

Lemma get_lines_clamps_witness :
  let block := TextBlock.init [str_of "a"; str_of "b"; str_of "c"] None in
  0 <= 1 /\ 0 <= 2 /\
  TextBlock.get_lines block 1 2
  = firstn (Z.to_nat 2) (skipn (Z.to_nat 1) (TextBlock.lines block)) /\
  (1 + 2 <= TextBlock.len block -> Py.len (TextBlock.get_lines block 1 2) = 2).
Proof.
  intro block.
  assert (H1 : 0 <= 1) by lia. assert (H2 : 0 <= 2) by lia.
  split; [exact H1 | split; [exact H2 | exact (get_lines_clamps block 1 2 H1 H2)]].
Defined.

(** C8, as stated, fails: a slice that runs past the end of the block
    returns the lines that exist and raises nothing. *)
Lemma slice_past_the_end_returns :
  let block := TextBlock.init [str_of "a"; str_of "b"] None in
  0 + 5 > TextBlock.len block /\
  TextBlock.get_lines block 0 5 = [str_of "a"; str_of "b"] /\
  TextBlock.get_lines block 1 5 = [str_of "b"].
Proof. repeat split; vm_compute; reflexivity. Qed.

(** C9, as stated, fails: [-1] is no append position of the two-element
    block list, yet [close_block(-1)] returns and closes the last block. *)
Lemma close_block_accepts_negative_id :
  ~ (0 <= -1 < Py.len (blocks after_open_2_3)) /\
  map TextBlock.is_open (blocks after_open_2_3) = [false; true] /\
  snd (close_block (-1) after_open_2_3) = Ok tt /\
  map TextBlock.is_open (blocks (fst (close_block (-1) after_open_2_3)))
  = [false; false].
Proof. split; [lia | repeat split; vm_compute; reflexivity]. Qed.

(** C7, as stated, fails: opening a region at the start of an entry
    leaves that entry in the table with length 0. *)
Lemma zero_length_entry_after_open :
  exists self' handle,
    open_block 0 2 table10 = (self', Ok handle) /\
    ~ Forall (fun ent => 1 <= e_length ent) (table self').
Proof.
  do 2 eexists. split; [vm_compute; reflexivity |].
  intro H. inversion H as [|? ? H1 _]; subst. cbn in H1. lia.
Qed.

(** ** Scenarios *)

(** C1: the code loses a line.  On the ten-line document,
    [open_block(2, 3)] returns 1 and [close_block(1)] closes that block;
    [open_block(1, 3)] then succeeds, but [get_lines(1, 3)] snapshots only
    two of the three lines, the new entry still claims three, and
    [stitch()] afterwards returns nine lines: line 3 is gone. *)
Theorem open_block_loses_a_line :
  open_block 2 3 table10 = (after_open_2_3, Ok 1) /\
  close_block 1 after_open_2_3 = (after_close_1, Ok tt) /\
  stitch after_close_1 = Ok ten_lines /\
  get_lines after_close_1 1 3 = Ok (firstn 2 (skipn 1 ten_lines)) /\
  open_block 1 3 after_close_1 = (after_open_1_3, Ok 1) /\
  table after_open_1_3
  = [mkEntry 0 0 1; mkEntry 2 0 3; mkEntry 1 2 1; mkEntry 0 5 5] /\
  stitch after_open_1_3 = Ok (firstn 3 ten_lines ++ skipn 4 ten_lines) /\
  stitch after_open_1_3 <> stitch after_close_1.
Proof.
  repeat split; try (vm_compute; reflexivity).
  vm_compute. discriminate.
Qed.

(** C2: the value [open_block] returns is the table position of the new
    entry, not the id of the new block.  After [open_block(2, 3)], the
    call [open_block(6, 2)] creates block 2 and returns 3, and
    [close_block(3)] raises [IndexError]; after [open_block(5, 2)], the
    call [open_block(1, 2)] creates block 2 and returns 1, and
    [close_block(1)] closes block 1 and leaves block 2 open. *)
Theorem open_block_handle_is_table_position :
  open_block 2 3 table10 = (after_open_2_3, Ok 1) /\
  open_block 6 2 after_open_2_3 = (after_open_6_2, Ok 3) /\
  Py.len (blocks after_open_6_2) - 1 = 2 /\
  close_block 3 after_open_6_2 = (after_open_6_2, Raise IndexError) /\
  open_block 5 2 table10 = (after_open_5_2, Ok 1) /\
  open_block 1 2 after_open_5_2 = (after_open_1_2, Ok 1) /\
  Py.len (blocks after_open_1_2) - 1 = 2 /\
  map TextBlock.is_open (blocks after_open_1_2) = [false; true; true] /\
  snd (close_block 1 after_open_1_2) = Ok tt /\
  map TextBlock.is_open (blocks (fst (close_block 1 after_open_1_2)))
  = [false; false; true].
Proof. repeat split; vm_compute; reflexivity. Qed.

(** C4: on a table constructed from any document of ten lines,
    [open_block(2, 3)] succeeds, [open_block(3, 2)] right after it raises
    the illegal-request [ValueError] and leaves the table as it was, and
    [open_block(5, 3)] right after that succeeds. *)
Theorem locking_scenario (lines : list str) :
  List.length lines = 10%nat ->
  exists s1 s2 h1 h2,
    open_block 2 3 (init (Lines lines)) = (s1, Ok h1) /\
    open_block 3 2 s1 = (s1, Raise (ValueError "Illegal block request")) /\
    open_block 5 3 s1 = (s2, Ok h2).
Proof.
  intro H.
  do 11 (destruct lines as [|? lines]; try discriminate H).
  do 4 eexists. split; [vm_compute; reflexivity |].
  split; vm_compute; reflexivity.
Qed.

Lemma locking_scenario_witness :
  List.length ten_lines = 10%nat /\
  exists s1 s2 h1 h2,
    open_block 2 3 (init (Lines ten_lines)) = (s1, Ok h1) /\
    open_block 3 2 s1 = (s1, Raise (ValueError "Illegal block request")) /\
    open_block 5 3 s1 = (s2, Ok h2).
Proof.
  split; [reflexivity | apply (locking_scenario ten_lines); reflexivity].
Defined.

Lemma remove_closed_blocks_installs_open (self self' : t) (stitched_file : list str) :
  remove_closed_blocks self = (self', Ok stitched_file) ->
  exists rest,
    blocks self' = TextBlock.mk true stitched_file :: rest /\
    table self' = table self.
Proof.
  unfold remove_closed_blocks. m_step.
  destruct (stitch self) as [sf|e]; [| discriminate].
  unfold setitem, norm_index. cbn -[Py.len].
  destruct (Py.len (blocks self) <=? 0) eqn:E; [discriminate |].
  intro H. injection H as <- <-.
  destruct (blocks self) as [|b rest]; [discriminate E |].
  exists rest. split; reflexivity.
Qed.

(** C6: the block that [remove_closed_blocks] installs is open.  On the
    ten-line document the call returns the ten lines and puts a block
    holding them at position 0 of the block list, and that block reports
    [is_open()] as true. *)
Theorem remove_closed_blocks_leaves_block_open :
  exists self' block,
    remove_closed_blocks table10 = (self', Ok ten_lines) /\
    getitem (blocks self') 0 = Ok block /\
    TextBlock.lines block = ten_lines /\
    TextBlock.is_open block = true.
Proof. do 2 eexists. repeat split; vm_compute; reflexivity. Qed.

(** ** Construction from a string *)

Lemma splitlines_from_concat (n : nat) :
  forall s cur, (List.length s <= n)%nat ->
                concat (splitlines_from true cur s) = cur ++ s.
Proof.
  induction n as [|n IH]; intros s cur Hn.
  - destruct s; [| simpl in Hn; lia].
    destruct cur; cbn; [reflexivity | now rewrite !app_nil_r].
  - destruct s as [|c rest].
    + destruct cur; cbn; [reflexivity | now rewrite !app_nil_r].
    + cbn [splitlines_from]. simpl in Hn.
      destruct (N.eqb c 13).
      * destruct rest as [|c' rest'].
        -- cbn. now rewrite app_nil_r.
        -- destruct (N.eqb c' 10); cbn [concat].
           ++ rewrite IH by (simpl in Hn; lia). cbn. now rewrite <- app_assoc.
           ++ rewrite IH by lia. cbn. now rewrite <- app_assoc.
      * destruct (is_line_boundary c); cbn [concat].
        -- rewrite IH by lia. cbn. now rewrite <- app_assoc.
        -- rewrite IH by lia. now rewrite <- app_assoc.
Qed.

(** C10: constructing the table from a string is constructing it from the
    string's [splitlines(True)] list: the same single closed block holding
    those lines and the same single entry [(0, 0, N)]; the lines keep
    their terminators, so they concatenate back to the string. *)
Theorem init_from_string (s : str) :
  init (Str s) = init (Lines (splitlines s true)) /\
  init (Str s)
  = {| blocks := [TextBlock.mk false (splitlines s true)];
       table := [mkEntry 0 0 (Py.len (splitlines s true))] |} /\
  concat (splitlines s true) = s.
Proof.
  repeat split. unfold splitlines.
  now rewrite (splitlines_from_concat (List.length s)).
Qed.

(** * Further properties of the two modules *)

(** ** Slices *)

Lemma firstn_plus {A : Type} (n m : nat) (l : list A) :
  firstn (n + m) l = firstn n l ++ firstn m (skipn n l).
Proof.
  revert l. induction n as [|n IH]; intro l; [reflexivity |].
  destruct l as [|x l]; simpl.
  - now rewrite firstn_nil.
  - now rewrite IH.
Qed.

Lemma skipn_plus {A : Type} (n m : nat) (l : list A) :
  skipn (n + m) l = skipn m (skipn n l).
Proof.
  revert l. induction n as [|n IH]; intro l; [reflexivity |].
  destruct l as [|x l]; simpl; [now rewrite skipn_nil | apply IH].
Qed.

Lemma slice_in_bounds {A : Type} (l : list A) (a b : Z) :
  0 <= a <= b -> b <= Py.len l ->
  slice l a b = firstn (Z.to_nat (b - a)) (skipn (Z.to_nat a) l).
Proof.
  intros Hab Hb. unfold slice, clamp_bound.
  destruct (a <? 0) eqn:Ea; [apply Z.ltb_lt in Ea; lia |].
  destruct (b <? 0) eqn:Eb; [apply Z.ltb_lt in Eb; lia |].
  now rewrite !Z.min_l by lia.
Qed.

Lemma slice_len {A : Type} (l : list A) (a b : Z) :
  0 <= a <= b -> b <= Py.len l -> Py.len (slice l a b) = b - a.
Proof.
  intros Hab Hb. rewrite slice_in_bounds by assumption.
  unfold Py.len in *. rewrite length_firstn, length_skipn. lia.
Qed.

Lemma slice_all {A : Type} (l : list A) : slice l 0 (Py.len l) = l.
Proof.
  pose proof (len_nonneg l).
  rewrite slice_in_bounds by lia. rewrite Z.sub_0_r. unfold Py.len.
  rewrite Nat2Z.id. cbn [Z.to_nat skipn]. apply firstn_all.
Qed.

Lemma slice_adjacent {A : Type} (l : list A) (a b c : Z) :
  0 <= a <= b -> b <= c -> c <= Py.len l ->
  slice l a b ++ slice l b c = slice l a c.
Proof.
  intros Hab Hbc Hc. rewrite !slice_in_bounds by lia.
  replace (Z.to_nat (c - a)) with (Z.to_nat (b - a) + Z.to_nat (c - b))%nat by lia.
  rewrite firstn_plus, <- skipn_plus.
  replace (Z.to_nat a + Z.to_nat (b - a))%nat with (Z.to_nat b) by lia.
  reflexivity.
Qed.

Lemma slice_empty {A : Type} (l : list A) (a : Z) : slice l a a = [].
Proof. unfold slice. now rewrite Z.sub_diag. Qed.

Lemma stitch_loop_pieces (self : t) (tbl : list Entry) :
  forall stitched_file,
    Forall (fun ent => exists block, getitem (blocks self) (e_block ent) = Ok block) tbl ->
    stitch_loop self tbl stitched_file
    = Ok (stitched_file ++ concat (map (piece (blocks self)) tbl)).
Proof.
  induction tbl as [|ent rest IH]; intros acc H; cbn [stitch_loop map concat].
  - now rewrite app_nil_r.
  - inversion H as [|? ? [block Hb] Hrest]; subst.
    unfold piece at 1. rewrite Hb. cbn [rbind].
    rewrite IH by assumption. now rewrite <- app_assoc.
Qed.

Lemma stitch_after_init_aux (lines : list str) :
  stitch (init (Lines lines)) = Ok lines.
Proof.
  unfold stitch, init. cbn [table blocks stitch_loop e_block e_start e_length].
  change (getitem [TextBlock.init lines (Some false)] 0)
    with (Ok (TextBlock.init lines (Some false))).
  cbn [rbind stitch_loop app]. unfold TextBlock.get_lines.
  cbn [TextBlock.init TextBlock.lines]. now rewrite Z.add_0_l, slice_all.
Qed.

Lemma slice_prefix {A : Type} (pre post : list A) :
  slice (pre ++ post) 0 (Py.len pre) = pre.
Proof.
  pose proof (len_nonneg pre). pose proof (len_nonneg post).
  rewrite slice_in_bounds by (rewrite ?len_app; lia).
  rewrite Z.sub_0_r. unfold Py.len. rewrite Nat2Z.id. cbn [Z.to_nat skipn].
  rewrite firstn_app, Nat.sub_diag, firstn_all, firstn_O. apply app_nil_r.
Qed.

Lemma lengths_sum_nonneg (tbl : list Entry) :
  nonneg_lengths tbl -> 0 <= sum (lengths tbl).
Proof.
  induction 1 as [|ent tbl He _ IH]; cbn [lengths map].
  - reflexivity.
  - fold (lengths tbl). rewrite sum_cons. lia.
Qed.

Lemma locate_loop_at (pre : list Entry) (ent : Entry) (post : list Entry) :
  forall i block_start off,
    nonneg_lengths pre ->
    0 <= off < e_length ent ->
    locate_loop (pre ++ ent :: post) i block_start
      (block_start + sum (lengths pre) + off)
    = Ok (i + Py.len pre, off).
Proof.
  induction pre as [|a pre IH]; intros i bs off Hpre Hoff.
  - cbn [app locate_loop lengths map]. change (sum []) with 0.
    replace ((bs + 0 + off >=? bs) && (bs + 0 + off <? bs + e_length ent)) with true.
    + f_equal. f_equal; [cbn; lia | lia].
    + symmetry. apply andb_true_iff. split; [apply Z.geb_le | apply Z.ltb_lt]; lia.
  - inversion Hpre as [|? ? Ha Hpre']; subst.
    pose proof (lengths_sum_nonneg pre Hpre') as Hs.
    cbn [app locate_loop lengths map]. fold (lengths pre). rewrite sum_cons.
    replace (bs + (e_length a + sum (lengths pre)) + off <? bs + e_length a) with false
      by (symmetry; apply Z.ltb_ge; lia).
    rewrite andb_false_r.
    replace (bs + (e_length a + sum (lengths pre)) + off)
      with ((bs + e_length a) + sum (lengths pre) + off) by lia.
    rewrite IH by assumption. rewrite len_cons. f_equal. f_equal. lia.
Qed.

Lemma locate_loop_in_range (tbl : list Entry) :
  forall i block_start line,
    nonneg_lengths tbl ->
    block_start <= line < block_start + sum (lengths tbl) ->
    exists idx off, locate_loop tbl i block_start line = Ok (idx, off).
Proof.
  induction tbl as [|ent rest IH]; intros i bs line Hn Hr.
  - cbn in Hr. lia.
  - inversion Hn as [|? ? He Hrest]; subst.
    cbn [lengths map] in Hr. fold (lengths rest) in Hr. rewrite sum_cons in Hr.
    cbn [locate_loop].
    destruct ((line >=? bs) && (line <? bs + e_length ent)) eqn:G; [eauto |].
    apply IH; [assumption |].
    apply andb_false_iff in G. destruct G as [G | G].
    + rewrite Z.geb_leb in G. apply Z.leb_gt in G. lia.
    + apply Z.ltb_ge in G. lia.
Qed.

Lemma locate_out_of_range (self : t) (line : Z) :
  nonneg_lengths (table self) ->
  line < 0 \/ len self <= line ->
  line_to_table_index self line = Raise (ValueError "Invalid line number").
Proof.
  intros Hn H. unfold line_to_table_index, len in *.
  destruct (locate_loop (table self) 0 0 line) as [[idx off]|e] eqn:E.
  - apply locate_loop_ok in E.
    destruct E as (pre & ent & post & Ht & _ & Hoff & Hr).
    rewrite Ht in Hn, H. apply Forall_app in Hn. destruct Hn as [Hpre Hrest].
    inversion Hrest as [|? ? He Hpost]; subst.
    pose proof (lengths_sum_nonneg pre Hpre). pose proof (lengths_sum_nonneg post Hpost).
    change (map e_length (pre ++ ent :: post)) with (lengths (pre ++ ent :: post)) in H.
    rewrite lengths_app, sum_app in H. cbn [lengths map] in H.
    fold (lengths post) in H. rewrite sum_cons in H. lia.
  - f_equal. now apply locate_loop_raises in E.
Qed.

(** X1: on a table whose entries have non-negative lengths,
    [line_to_table_index(line)] returns exactly for the lines of the
    document, [0 <= line < len(self)], and raises the invalid-line
    [ValueError] for every other line. *)
Theorem line_to_table_index_range (self : t) (line : Z) :
  nonneg_lengths (table self) ->
  (0 <= line < len self ->
   exists idx off, line_to_table_index self line = Ok (idx, off)) /\
  (line < 0 \/ len self <= line ->
   line_to_table_index self line = Raise (ValueError "Invalid line number")).
Proof.
  intro Hn. split; intro H.
  - unfold line_to_table_index, len in *. now apply locate_loop_in_range.
  - now apply locate_out_of_range.
Qed.

Lemma locate_start (self : t) (line idx off : Z) :
  line_to_table_index self line = Ok (idx, off) ->
  exists ent,
    getitem (table self) idx = Ok ent /\
    0 <= idx < Py.len (table self) /\
    0 <= off < e_length ent /\
    get_block_start self idx + off = line.
Proof.
  unfold line_to_table_index, get_block_start. intro H.
  apply locate_loop_ok in H. destruct H as (pre & ent & post & Ht & Hi & Hoff & Hr).
  rewrite Z.add_0_l in Hi, Hoff. subst idx. rewrite Ht.
  exists ent. rewrite getitem_mid, slice_prefix, len_app, len_cons.
  pose proof (len_nonneg pre). pose proof (len_nonneg post).
  fold (lengths pre). repeat split; lia.
Qed.

(** X2: when [line_to_table_index(line)] returns [(idx, off)],
    [idx] is a position of the table, [off] lies inside the entry at that
    position, and [get_block_start(idx) + off] is [line] again. *)
Theorem line_to_table_index_start (self : t) (line idx off : Z) :
  line_to_table_index self line = Ok (idx, off) ->
  exists ent,
    getitem (table self) idx = Ok ent /\
    0 <= idx < Py.len (table self) /\
    0 <= off < e_length ent /\
    get_block_start self idx + off = line.
Proof. apply locate_start. Qed.

Lemma getitem_split {A : Type} (l : list A) (k : Z) (x : A) :
  0 <= k -> getitem l k = Ok x ->
  exists pre post, l = pre ++ x :: post /\ Py.len pre = k.
Proof.
  intros Hk. unfold getitem, norm_index.
  destruct (k <? 0) eqn:E; [apply Z.ltb_lt in E; lia |]. rewrite E.
  destruct (nth_error l (Z.to_nat k)) as [y|] eqn:N; [| discriminate].
  intros [= ->]. apply nth_error_split in N. destruct N as (pre & post & -> & Hl).
  exists pre, post. split; [reflexivity | unfold Py.len; lia].
Qed.

Lemma block_start_step (tbl : list Entry) (k : Z) (ent : Entry) :
  0 <= k -> getitem tbl k = Ok ent ->
  sum (lengths (slice tbl 0 (k + 1))) = sum (lengths (slice tbl 0 k)) + e_length ent.
Proof.
  intros Hk G. apply getitem_split in G; [| assumption].
  destruct G as (pre & post & -> & <-).
  rewrite slice_prefix.
  replace (pre ++ ent :: post) with ((pre ++ [ent]) ++ post) by (now rewrite <- app_assoc).
  replace (Py.len pre + 1) with (Py.len (pre ++ [ent])) by (now rewrite len_app).
  rewrite slice_prefix, lengths_app, sum_app. cbn [lengths map].
  now rewrite sum_cons, Z.add_0_r.
Qed.

Lemma range_loop_spec (tbl : list Entry) (first : Z) :
  forall fuel length_rem last_off r,
    0 <= first + last_off <= Py.len tbl ->
    range_loop fuel tbl first length_rem last_off = Ok r ->
    let total := length_rem + sum (lengths (slice tbl 0 (first + last_off))) in
    last_off <= r /\ first + r <= Py.len tbl /\
    (total <= sum (lengths (slice tbl 0 (first + r))) \/ first + r = Py.len tbl) /\
    (forall j, last_off <= j < r -> sum (lengths (slice tbl 0 (first + j))) < total).
Proof.
  induction fuel as [|fuel IH]; intros length_rem last_off r Hb; cbn [range_loop];
    destruct ((length_rem >? 0) && (first + last_off <? Py.len tbl)) eqn:G;
    try discriminate.
  - intros [= <-]. cbv zeta.
    apply andb_false_iff in G. rewrite Z.gtb_ltb, !Z.ltb_ge in G.
    repeat split; lia.
  - apply andb_true_iff in G. destruct G as [G1 G2].
    rewrite Z.gtb_ltb in G1. apply Z.ltb_lt in G1. apply Z.ltb_lt in G2.
    destruct (getitem tbl (first + last_off)) as [ent|e] eqn:E; cbn [rbind];
      [| discriminate].
    intro H. apply IH in H; [| lia]. cbv zeta in *.
    replace (first + (last_off + 1)) with (first + last_off + 1) in H by lia.
    rewrite (block_start_step tbl (first + last_off) ent) in H by (assumption || lia).
    destruct H as (H1 & H2 & H3 & H4).
    repeat split; try lia.
    intros j Hj. destruct (Z.eq_dec j last_off) as [-> | Hne]; [lia |].
    specialize (H4 j). lia.
  - intros [= <-]. cbv zeta.
    apply andb_false_iff in G. rewrite Z.gtb_ltb, !Z.ltb_ge in G.
    repeat split; lia.
Qed.

(** X3: when [get_block_range(start, length)] returns
    [(first, last)], [first] is the entry [line_to_table_index(start)]
    finds, [first <= last < len(self.table)], the range ends at the last
    entry of the table or reaches line [start + length], and no shorter
    range reaches it. *)
Theorem get_block_range_spec (self : t) (start length first last : Z) :
  get_block_range self start length = Ok (first, last) ->
  (exists offset, line_to_table_index self start = Ok (first, offset)) /\
  first <= last < Py.len (table self) /\
  (start + length <= get_block_start self (last + 1) \/
   last = Py.len (table self) - 1) /\
  (forall k, first <= k < last -> get_block_start self (k + 1) < start + length).
Proof.
  intro H.
  destruct (line_to_table_index self start) as [[first' offset]|e] eqn:Hl;
    [| unfold get_block_range in H; rewrite Hl in H; discriminate].
  destruct (locate_start self start first' offset Hl)
    as (ent & Hg & Hi & Hoff & Hs).
  unfold get_block_range in H. rewrite Hl in H. cbn [rbind] in H. rewrite Hg in H.
  cbn [rbind] in H.
  destruct (range_loop _ (table self) first' _ 1) as [r|e] eqn:Hr; [| discriminate].
  cbn [rbind] in H. injection H as <- <-.
  apply range_loop_spec in Hr; [| lia]. cbv zeta in Hr.
  rewrite (block_start_step (table self) first' ent) in Hr by (assumption || lia).
  unfold get_block_start in *. fold (lengths (slice (table self) 0 first')) in Hs.
  destruct Hr as (H1 & H2 & H3 & H4).
  split; [eauto |]. split; [lia |]. split.
  - replace (first' + r - 1 + 1) with (first' + r) by lia.
    fold (lengths (slice (table self) 0 (first' + r))).
    destruct H3 as [H3 | H3]; [left; lia | right; lia].
  - intros k Hk. specialize (H4 (k - first' + 1)).
    replace (first' + (k - first' + 1)) with (k + 1) in H4 by lia.
    fold (lengths (slice (table self) 0 (k + 1))). lia.
Qed.

Lemma range_cons (a b : Z) : a < b -> range a b = a :: range (a + 1) b.
Proof.
  intro H. unfold range.
  replace (Z.to_nat (b - a)) with (S (Z.to_nat (b - (a + 1)))) by lia.
  cbn [seq map]. f_equal; [lia |].
  rewrite <- seq_shift, map_map. apply map_ext. intro k. lia.
Qed.

Lemma open_block_refused (start length i off : Z) (self : t)
    (ent : Entry) (block : TextBlock.t) :
  line_to_table_index self start = Ok (i, off) ->
  getitem (table self) i = Ok ent ->
  getitem (blocks self) (e_block ent) = Ok block ->
  TextBlock.is_open block = true ->
  open_block start length self = (self, Raise (ValueError "Illegal block request")).
Proof.
  intros Hl Ht Hb Ho.
  destruct (get_block_range_total self start length i off Hl) as (last & Hr & Hlast).
  unfold open_block. m_step. rewrite Hr.
  rewrite range_cons by lia. cbn [check_loop]. rewrite Ht. cbn [rbind].
  rewrite Hb. cbn [rbind]. rewrite Ho. reflexivity.
Qed.

(** X4: [stitch()] right after construction returns the lines the
    table was constructed from; constructed from a string, it returns
    lines that concatenate to that string. *)
Theorem stitch_after_init (lines : list str) (s : str) :
  stitch (init (Lines lines)) = Ok lines /\
  exists doc, stitch (init (Str s)) = Ok doc /\ concat doc = s.
Proof.
  split; [apply stitch_after_init_aux |].
  exists (splitlines s true). split.
  - apply (stitch_after_init_aux (splitlines s true)).
  - unfold splitlines. now rewrite (splitlines_from_concat (List.length s)).
Qed.

(** X5: when the entry that contains line [start] is backed by
    an open block, [open_block(start, length)] raises the illegal-request
    [ValueError] for every [length] and leaves the table as it was. *)
Theorem open_block_refused_on_open_entry (start length i off : Z) (self : t)
    (ent : Entry) (block : TextBlock.t) :
  line_to_table_index self start = Ok (i, off) ->
  getitem (table self) i = Ok ent ->
  getitem (blocks self) (e_block ent) = Ok block ->
  TextBlock.is_open block = true ->
  open_block start length self = (self, Raise (ValueError "Illegal block request")).
Proof. apply open_block_refused. Qed.

(** X6: [open_block(start, length)] succeeds only inside the
    file: [start + length <= len(self)], and, on a table whose entries
    have non-negative lengths, [0 <= start < len(self)]. *)
Theorem open_block_success_bounds (start length h : Z) (self self' : t) :
  open_block start length self = (self', Ok h) ->
  start + length <= len self /\
  (nonneg_lengths (table self) -> 0 <= start < len self).
Proof.
  intro H.
  destruct (open_block_cases start length self)
    as [(e & _ & E) | (pre & ent & post & offset & block_lines & Ht & Hs & Ho & Hb & _ & E)];
    rewrite E in H; [discriminate |].
  split; [assumption |]. intro Hn. unfold len. rewrite Ht in *.
  apply Forall_app in Hn. destruct Hn as [Hpre Hrest].
  inversion Hrest as [|? ? He Hpost]; subst.
  pose proof (lengths_sum_nonneg pre Hpre). pose proof (lengths_sum_nonneg post Hpost).
  change (map e_length (pre ++ ent :: post)) with (lengths (pre ++ ent :: post)).
  rewrite lengths_app, sum_app. cbn [lengths map]. fold (lengths post).
  rewrite sum_cons. lia.
Qed.

Lemma getitem_after_one {A : Type} (pre post : list A) (x y : A) :
  getitem (pre ++ x :: y :: post) (Py.len pre + 1) = Ok y.
Proof.
  replace (Py.len pre + 1) with (Py.len (pre ++ [x])) by (now rewrite len_app).
  replace (pre ++ x :: y :: post) with ((pre ++ [x]) ++ y :: post)
    by (now rewrite <- app_assoc).
  apply getitem_mid.
Qed.

Lemma getitem_last {A : Type} (l : list A) (x : A) :
  getitem (l ++ [x]) (Py.len l) = Ok x.
Proof. apply getitem_mid. Qed.

(** X7: a successful [open_block(start, length)] appends exactly
    one block, open and holding what [get_lines(start, length)] returned,
    and changes no other block; the value it returns is the table position
    of the new entry [[id, 0, length]], whose [id] is the position of the
    new block in the block list. *)
Theorem open_block_result (start length h : Z) (self self' : t) :
  open_block start length self = (self', Ok h) ->
  exists block_lines,
    get_lines self start length = Ok block_lines /\
    blocks self' = blocks self ++ [TextBlock.mk true block_lines] /\
    getitem (table self') h = Ok (mkEntry (Py.len (blocks self)) 0 length) /\
    getitem (blocks self') (Py.len (blocks self)) = Ok (TextBlock.mk true block_lines).
Proof.
  intro H.
  destruct (open_block_cases start length self)
    as [(e & _ & E) | (pre & ent & post & offset & block_lines & Ht & Hs & Ho & Hb & Hg & E)];
    rewrite E in H; [discriminate |].
  injection H as <- <-. exists block_lines. cbn [blocks table].
  repeat split; [assumption | | apply getitem_last].
  unfold opened_table. apply getitem_after_one.
Qed.

Lemma locate_loop_at_line (pre : list Entry) (ent : Entry) (post : list Entry)
    (i block_start line off : Z) :
  nonneg_lengths pre ->
  0 <= off < e_length ent ->
  line = block_start + sum (lengths pre) + off ->
  locate_loop (pre ++ ent :: post) i block_start line = Ok (i + Py.len pre, off).
Proof. intros Hp Ho ->. now apply locate_loop_at. Qed.

(** X8: on a table whose entries have non-negative lengths,
    after a successful [open_block(start, length)] every [open_block]
    whose first line lies in [start, start + length) raises the
    illegal-request [ValueError] and leaves the table as it was. *)
Theorem open_block_locks_region (start length h line length' : Z) (self self' : t) :
  nonneg_lengths (table self) ->
  open_block start length self = (self', Ok h) ->
  start <= line < start + length ->
  open_block line length' self' = (self', Raise (ValueError "Illegal block request")).
Proof.
  intros Hn H Hline.
  destruct (open_block_cases start length self)
    as [(e & _ & E) | (pre & ent & post & offset & block_lines & Ht & Hs & Ho & Hb & Hg & E)];
    rewrite E in H; [discriminate |].
  injection H as <- <-.
  rewrite Ht in Hn. apply Forall_app in Hn. destruct Hn as [Hpre _].
  set (e1 := mkEntry (e_block ent) (e_start ent) offset).
  set (enew := mkEntry (Py.len (blocks self)) 0 length).
  apply (open_block_refused line length' (Py.len pre + 1) (line - start) _ enew
           (TextBlock.init block_lines None)).
  - unfold line_to_table_index. cbn [table]. unfold opened_table. fold e1 enew.
    match goal with |- locate_loop (pre ++ e1 :: enew :: ?tl) _ _ _ = _ =>
      replace (pre ++ e1 :: enew :: tl) with ((pre ++ [e1]) ++ enew :: tl)
        by (now rewrite <- app_assoc);
      rewrite (locate_loop_at_line (pre ++ [e1]) enew tl 0 0 line (line - start))
    end.
    + rewrite len_app. reflexivity.
    + apply Forall_app. split; [assumption |]. constructor; [cbn; lia | constructor].
    + cbn [enew e_length]. lia.
    + rewrite lengths_app, sum_app. cbn [lengths map e_length e1].
      rewrite sum_cons. change (sum []) with 0. lia.
  - cbn [table]. unfold opened_table. apply getitem_after_one.
  - cbn [blocks enew e_block]. apply getitem_last.
  - reflexivity.
Qed.

Lemma close_block_ok_inv (index : Z) (self self' : t) :
  close_block index self = (self', Ok tt) ->
  exists pre b post,
    blocks self = pre ++ b :: post /\
    norm_index (Py.len (blocks self)) index = Py.len pre /\
    self' = {| blocks := pre ++ TextBlock.close b :: post; table := table self |}.
Proof.
  destruct self as [bs tbl]. unfold close_block. m_step.
  destruct (getitem bs index) as [b|e] eqn:G; [| discriminate].
  unfold getitem in G.
  destruct (norm_index (Py.len bs) index <? 0) eqn:E; [discriminate |].
  apply Z.ltb_ge in E.
  destruct (nth_error bs _) as [b'|] eqn:N; [| discriminate].
  injection G as ->. apply nth_error_split in N. destruct N as (pre & post & -> & Hl).
  assert (Hn : norm_index (Py.len (pre ++ b :: post)) index = Py.len pre)
    by (unfold Py.len at 2; lia).
  rewrite setitem_at by exact Hn.
  intros [= <-]. exists pre, b, post. repeat split; assumption.
Qed.

Lemma close_block_at (index : Z) (self : t) pre b post :
  blocks self = pre ++ b :: post ->
  norm_index (Py.len (blocks self)) index = Py.len pre ->
  close_block index self
  = ({| blocks := pre ++ TextBlock.close b :: post; table := table self |}, Ok tt).
Proof.
  intros Hb Hn. unfold close_block. m_step. rewrite Hb in *.
  rewrite getitem_at by exact Hn. m_step. now rewrite setitem_at by exact Hn.
Qed.

(** X9: a [close_block(index)] that succeeded succeeds again on
    the table it left and changes nothing. *)
Theorem close_block_idempotent (index : Z) (self self' : t) :
  close_block index self = (self', Ok tt) ->
  close_block index self' = (self', Ok tt).
Proof.
  intro H. apply close_block_ok_inv in H.
  destruct H as (pre & b & post & Hb & Hn & ->).
  rewrite (close_block_at index _ pre (TextBlock.close b) post).
  - reflexivity.
  - reflexivity.
  - cbn [blocks]. rewrite Hb in Hn. rewrite !len_app, !len_cons in *. exact Hn.
Qed.

Lemma getitem_related {A : Type} (R : A -> A -> Prop) (l l' : list A) (i : Z) :
  Forall2 R l l' ->
  match getitem l i, getitem l' i with
  | Ok a, Ok a' => R a a'
  | Raise e, Raise e' => e = e'
  | _, _ => False
  end.
Proof.
  intro H. unfold getitem, Py.len. rewrite <- (Forall2_length H).
  destruct (norm_index _ i <? 0); [reflexivity |].
  generalize (Z.to_nat (norm_index (Z.of_nat (List.length l)) i)) as n.
  induction H as [|a a' l l' Ha _ IH]; intros [|n]; cbn; try reflexivity.
  - exact Ha.
  - apply IH.
Qed.

Lemma stitch_loop_same_lines (bs bs' : list TextBlock.t) (tbl tbl' : list Entry) :
  Forall2 same_lines bs bs' ->
  forall entries stitched_file,
    stitch_loop {| blocks := bs; table := tbl |} entries stitched_file
    = stitch_loop {| blocks := bs'; table := tbl' |} entries stitched_file.
Proof.
  intros H entries. induction entries as [|ent rest IH]; intro acc; cbn [stitch_loop blocks].
  - reflexivity.
  - pose proof (getitem_related same_lines bs bs' (e_block ent) H) as G.
    destruct (getitem bs (e_block ent)) as [b|e], (getitem bs' (e_block ent)) as [b'|e'];
      cbn [rbind]; try contradiction.
    + unfold TextBlock.get_lines. rewrite G. apply IH.
    + now subst.
Qed.

Lemma same_lines_refl (bs : list TextBlock.t) : Forall2 same_lines bs bs.
Proof. induction bs; constructor; [reflexivity | assumption]. Qed.

Lemma close_block_same_lines (index : Z) (self : t) :
  Forall2 same_lines (blocks self) (blocks (fst (close_block index self))).
Proof.
  destruct (close_block index self) as [self' [[]|e]] eqn:H; cbn [fst].
  - apply close_block_ok_inv in H. destruct H as (pre & b & post & Hb & _ & ->).
    cbn [blocks]. rewrite Hb.
    apply Forall2_app; [apply same_lines_refl |].
    constructor; [reflexivity | apply same_lines_refl].
  - destruct (close_block_cases index self) as [E | [bs E]]; rewrite E in H.
    + injection H as <- _. apply same_lines_refl.
    + discriminate.
Qed.

Lemma entry_ok_same_lines (bs bs' : list TextBlock.t) (ent : Entry) :
  Forall2 same_lines bs bs' -> entry_ok bs ent -> entry_ok bs' ent.
Proof.
  intros H (H0 & H1 & H2 & block & Hg & Hb).
  repeat split; try assumption.
  pose proof (getitem_related same_lines bs bs' (e_block ent) H) as G.
  rewrite Hg in G. destruct (getitem bs' (e_block ent)) as [block'|e]; [| contradiction].
  exists block'. split; [reflexivity |].
  unfold TextBlock.len in *. unfold same_lines in G. now rewrite <- G.
Qed.

(** X10: [close_block], whether it succeeds or raises, changes
    neither what [stitch()] returns nor the length of the document, and
    it keeps a well-formed table well formed. *)
Theorem close_block_keeps_document (index : Z) (self : t) :
  stitch (fst (close_block index self)) = stitch self /\
  len (fst (close_block index self)) = len self /\
  (well_formed self -> well_formed (fst (close_block index self))).
Proof.
  pose proof (close_block_same_lines index self) as Hs.
  pose proof (close_block_keeps_table index self) as Ht.
  repeat split.
  - unfold stitch. rewrite Ht.
    destruct self as [bs tbl], (fst (close_block index {| blocks := bs; table := tbl |}))
      as [bs' tbl'].
    cbn [blocks table] in *. symmetry. now apply stitch_loop_same_lines.
  - unfold len. now rewrite Ht.
  - unfold well_formed. rewrite Ht. apply Forall_impl. intros ent.
    now apply entry_ok_same_lines.
Qed.

(** X11: when [remove_closed_blocks()] returns, it returns
    what [stitch()] returned and leaves the entries as they were; after
    it, every [open_block] whose first line lies in an entry backed by
    block 0 raises the illegal-request [ValueError]. *)
Theorem open_block_refused_after_compaction
    (start length i off : Z) (self self' : t) (doc : list str) (ent : Entry) :
  remove_closed_blocks self = (self', Ok doc) ->
  line_to_table_index self start = Ok (i, off) ->
  getitem (table self) i = Ok ent ->
  e_block ent = 0 ->
  stitch self = Ok doc /\
  table self' = table self /\
  open_block start length self' = (self', Raise (ValueError "Illegal block request")).
Proof.
  intros H Hl Ht Hb.
  assert (Hs : stitch self = Ok doc).
  { revert H. unfold remove_closed_blocks. m_step.
    destruct (stitch self) as [d|e]; [| discriminate].
    destruct (setitem _ _ _); [| discriminate]. now intros [= _ ->]. }
  apply remove_closed_blocks_installs_open in H. destruct H as (rest & Hbs & Htbl).
  repeat split; [assumption | assumption |].
  apply (open_block_refused start length i off self' ent (TextBlock.mk true doc)).
  - unfold line_to_table_index in *. now rewrite Htbl.
  - now rewrite Htbl.
  - rewrite Hbs, Hb. reflexivity.
  - reflexivity.
Qed.

(** X12: after [set_content(content)] the lines of the block
    concatenate to [content], and the open flag is what it was. *)
Theorem set_content_keeps_text (self : TextBlock.t) (content : str) :
  concat (TextBlock.lines (TextBlock.set_content self content)) = content /\
  TextBlock.is_open (TextBlock.set_content self content) = TextBlock.is_open self.
Proof.
  split; [| reflexivity]. cbn [TextBlock.set_content TextBlock.lines].
  unfold splitlines. now rewrite (splitlines_from_concat (List.length content)).
Qed.

Lemma getitem_app_l {A : Type} (l l' : list A) (i : Z) (x : A) :
  0 <= i -> getitem l i = Ok x -> getitem (l ++ l') i = Ok x.
Proof.
  intros Hi G. apply getitem_split in G; [| assumption].
  destruct G as (pre & post & -> & <-). rewrite <- app_assoc. apply getitem_mid.
Qed.

Lemma entry_ok_app (bs : list TextBlock.t) (b : TextBlock.t) (ent : Entry) :
  entry_ok bs ent -> entry_ok (bs ++ [b]) ent.
Proof.
  intros (H0 & H1 & H2 & block & Hg & Hb).
  repeat split; try assumption. exists block. split; [| assumption].
  now apply getitem_app_l.
Qed.

Lemma piece_app (bs : list TextBlock.t) (b : TextBlock.t) (ent : Entry) :
  entry_ok bs ent -> piece (bs ++ [b]) ent = piece bs ent.
Proof.
  intros (H0 & _ & _ & block & Hg & _). unfold piece.
  now rewrite (getitem_app_l bs [b] _ block H0 Hg), Hg.
Qed.

Lemma piece_len (bs : list TextBlock.t) (ent : Entry) :
  entry_ok bs ent -> Py.len (piece bs ent) = e_length ent.
Proof.
  intros (_ & H1 & H2 & block & Hg & Hb). unfold piece. rewrite Hg.
  unfold TextBlock.get_lines, TextBlock.len in *.
  rewrite slice_len by lia. lia.
Qed.

Lemma well_formed_nonneg (bs : list TextBlock.t) (tbl : list Entry) :
  Forall (entry_ok bs) tbl -> nonneg_lengths tbl.
Proof.
  unfold nonneg_lengths. apply Forall_impl. now intros ent (_ & _ & H & _).
Qed.

Lemma well_formed_lookups (bs : list TextBlock.t) (tbl : list Entry) :
  Forall (entry_ok bs) tbl ->
  Forall (fun ent => exists block, getitem bs (e_block ent) = Ok block) tbl.
Proof.
  apply Forall_impl. intros ent (_ & _ & _ & block & Hg & _). eauto.
Qed.

Lemma stitch_well_formed (self : t) :
  well_formed self ->
  stitch self = Ok (concat (map (piece (blocks self)) (table self))).
Proof.
  intro H. unfold stitch.
  now rewrite stitch_loop_pieces by (now apply well_formed_lookups).
Qed.

Lemma pieces_len (bs : list TextBlock.t) (tbl : list Entry) :
  Forall (entry_ok bs) tbl ->
  Py.len (concat (map (piece bs) tbl)) = sum (lengths tbl).
Proof.
  induction 1 as [|ent tbl He _ IH]; cbn [map concat lengths].
  - reflexivity.
  - fold (lengths tbl). rewrite len_app, sum_cons, IH, piece_len by assumption.
    reflexivity.
Qed.

(** X13: on a well-formed table [stitch()] returns, and it returns
    as many lines as [__len__] reports. *)
Theorem stitch_length (self : t) :
  well_formed self ->
  exists doc, stitch self = Ok doc /\ Py.len doc = len self.
Proof.
  intro H. eexists. split; [now apply stitch_well_formed |].
  now apply pieces_len.
Qed.


Lemma range_nil (a : Z) : range a a = [].
Proof. unfold range. now rewrite Z.sub_diag. Qed.

Lemma range_loop_stops (fuel : nat) (tbl : list Entry) (first length_rem last_off : Z) :
  length_rem <= 0 -> range_loop fuel tbl first length_rem last_off = Ok last_off.
Proof.
  intro H. assert (G : (length_rem >? 0) = false) by (rewrite Z.gtb_ltb; now apply Z.ltb_ge).
  destruct fuel; cbn [range_loop]; now rewrite G.
Qed.

Lemma absorb_nothing (r : Z) (rest : list Entry) : r <= 0 -> absorb r rest = rest.
Proof.
  intro H. assert (G : (r >? 0) = false) by (rewrite Z.gtb_ltb; now apply Z.ltb_ge).
  destruct rest; cbn [absorb]; [reflexivity | now rewrite G].
Qed.

(** Reading a region that lies inside one entry. *)
Lemma get_lines_within_entry (self : t) (pre : list Entry) (ent : Entry)
    (post : list Entry) (block : TextBlock.t) (start length offset : Z) :
  table self = pre ++ ent :: post ->
  nonneg_lengths pre ->
  start = sum (lengths pre) + offset ->
  0 <= offset < e_length ent ->
  0 <= length -> offset + length <= e_length ent ->
  getitem (blocks self) (e_block ent) = Ok block ->
  get_block_range self start length = Ok (Py.len pre, Py.len pre) /\
  get_lines self start length
  = Ok (slice (TextBlock.lines block) (e_start ent + offset)
          (e_start ent + offset + length)).
Proof.
  intros Ht Hpre Hs Ho Hl Hfit Hb.
  assert (Hloc : line_to_table_index self start = Ok (Py.len pre, offset)).
  { unfold line_to_table_index. rewrite Ht.
    rewrite (locate_loop_at_line pre ent post 0 0 start offset) by (assumption || lia).
    now rewrite Z.add_0_l. }
  assert (Hr : get_block_range self start length = Ok (Py.len pre, Py.len pre)).
  { unfold get_block_range. rewrite Hloc. cbn [rbind]. rewrite Ht, getitem_mid.
    cbn [rbind]. rewrite range_loop_stops by lia. cbn [rbind].
    f_equal. f_equal. lia. }
  split; [exact Hr |].
  unfold get_lines.
  replace (length <? 0) with false by (symmetry; apply Z.ltb_ge; lia).
  rewrite Hloc. cbn [rbind]. rewrite Hr. cbn [rbind].
  rewrite range_cons by lia. rewrite range_nil. cbn [get_lines_loop].
  rewrite Ht, getitem_mid. cbn [rbind]. rewrite Hb. cbn [rbind].
  rewrite Z.eqb_refl, Z.min_l by lia. reflexivity.
Qed.

Lemma single_span_fits (self : t) (pre : list Entry) (ent : Entry)
    (post : list Entry) (start length offset i : Z) :
  table self = pre ++ ent :: post ->
  line_to_table_index self start = Ok (Py.len pre, offset) ->
  start = sum (lengths pre) + offset ->
  start + length <= len self ->
  get_block_range self start length = Ok (i, i) ->
  offset + length <= e_length ent.
Proof.
  intros Ht Hloc Hs Hb Hr.
  unfold get_block_range in Hr. rewrite Hloc in Hr. cbn [rbind] in Hr.
  rewrite Ht, getitem_mid in Hr. cbn [rbind] in Hr.
  destruct (range_loop _ _ _ _ 1) as [r|e] eqn:E; [| discriminate].
  cbn [rbind] in Hr. injection Hr as <- Hi. assert (r = 1) by lia. subst r.
  pose proof (len_nonneg pre). pose proof (len_nonneg post).
  apply range_loop_spec in E; [| rewrite len_app, len_cons; lia].
  cbv zeta in E. destruct E as (_ & _ & [E | E] & _).
  - lia.
  - rewrite len_app, len_cons in E. assert (Hp : Py.len post = 0) by lia.
    destruct post; [| rewrite len_cons in Hp; pose proof (len_nonneg post); lia].
    unfold len in Hb. rewrite Ht in Hb.
    change (map e_length (pre ++ [ent])) with (lengths (pre ++ [ent])) in Hb.
    rewrite lengths_app, sum_app in Hb. cbn [lengths map] in Hb.
    rewrite sum_cons in Hb. change (sum []) with 0 in Hb. lia.
Qed.

Lemma open_block_within_entry (start length h i : Z) (self self' : t) :
  well_formed self ->
  0 <= length ->
  open_block start length self = (self', Ok h) ->
  get_block_range self start length = Ok (i, i) ->
  well_formed self' /\
  concat (map (piece (blocks self')) (table self'))
  = concat (map (piece (blocks self)) (table self)).
Proof.
  intros Hwf Hlen H Hr.
  destruct (open_block_cases start length self)
    as [(e & _ & E) | (pre & ent & post & offset & block_lines & Ht & Hs & Ho & Hb & Hg & E)];
    rewrite E in H; [discriminate |].
  injection H as <- <-.
  unfold well_formed in *. cbn [blocks table]. rewrite Ht in *.
  set (bs := blocks self) in *.
  pose proof Hwf as Hwf0.
  apply Forall_app in Hwf. destruct Hwf as [Hpre Hrest].
  apply Forall_cons_iff in Hrest. destruct Hrest as [He Hpost].
  pose proof (well_formed_nonneg bs pre Hpre) as Hnpre.
  destruct He as (He0 & He1 & He2 & block & Hblock & Hin).
  assert (Hloc : line_to_table_index self start = Ok (Py.len pre, offset)).
  { unfold line_to_table_index. rewrite Ht.
    rewrite (locate_loop_at_line pre ent post 0 0 start offset) by (assumption || lia).
    now rewrite Z.add_0_l. }
  pose proof (single_span_fits self pre ent post start length offset i Ht Hloc Hs Hb Hr)
    as Hfit.
  destruct (get_lines_within_entry self pre ent post block start length offset
              Ht Hnpre Hs Ho Hlen Hfit Hblock) as [_ Hg'].
  rewrite Hg in Hg'. injection Hg' as ->.
  unfold TextBlock.len in Hin.
  set (lb := TextBlock.lines block) in *.
  set (s := e_start ent) in *.
  set (new_lines := slice lb (s + offset) (s + offset + length)).
  set (new_block := TextBlock.init new_lines None).
  assert (Hnl : Py.len new_lines = length).
  { unfold new_lines. rewrite slice_len by lia. lia. }
  assert (Hold : forall e, entry_ok bs e -> entry_ok (bs ++ [new_block]) e)
    by (intros; now apply entry_ok_app).
  assert (He1ok : entry_ok bs (mkEntry (e_block ent) s offset)).
  { repeat split; cbn [e_block e_start e_length]; try lia.
    exists block. split; [assumption | unfold TextBlock.len; fold lb; lia]. }
  assert (Henew : entry_ok (bs ++ [new_block]) (mkEntry (Py.len bs) 0 length)).
  { repeat split; cbn [e_block e_start e_length]; try lia; [apply len_nonneg |].
    exists new_block. split; [apply getitem_last |].
    unfold TextBlock.len, new_block. cbn [TextBlock.init TextBlock.lines]. lia. }
  assert (Hpnew : piece (bs ++ [new_block]) (mkEntry (Py.len bs) 0 length) = new_lines).
  { unfold piece. cbn [e_block e_start e_length]. rewrite getitem_last.
    unfold TextBlock.get_lines, new_block. cbn [TextBlock.init TextBlock.lines].
    rewrite Z.add_0_l, <- Hnl. apply slice_all. }
  assert (Hpent : piece bs ent = slice lb s (s + e_length ent)).
  { unfold piece. now rewrite Hblock. }
  assert (Hp1 : piece bs (mkEntry (e_block ent) s offset) = slice lb s (s + offset)).
  { unfold piece. cbn [e_block e_start e_length]. now rewrite Hblock. }
  assert (Hmap : forall tbl, Forall (entry_ok bs) tbl ->
                   map (piece (bs ++ [new_block])) tbl = map (piece bs) tbl).
  { intros tbl Htbl. apply map_ext_in. intros e Hein.
    apply piece_app. rewrite Forall_forall in Htbl. now apply Htbl. }
  unfold opened_table. fold s.
  destruct (e_length ent - (offset + length) >? 0) eqn:G.
  - rewrite Z.gtb_ltb in G. apply Z.ltb_lt in G.
    set (e3 := mkEntry (e_block ent) (s + offset + length)
                 (e_length ent - (offset + length))).
    assert (He3 : entry_ok bs e3).
    { repeat split; cbn [e3 e_block e_start e_length]; try lia.
      exists block. split; [assumption | unfold TextBlock.len; fold lb; lia]. }
    assert (Hp3 : piece bs e3 = slice lb (s + offset + length) (s + e_length ent)).
    { unfold piece. cbn [e3 e_block e_start e_length]. rewrite Hblock.
      unfold TextBlock.get_lines. fold lb. f_equal. lia. }
    split.
    + apply Forall_app. split; [eapply Forall_impl; [exact Hold | exact Hpre] |].
      constructor; [now apply Hold |]. constructor; [exact Henew |].
      constructor; [now apply Hold |]. eapply Forall_impl; [exact Hold | exact Hpost].
    + rewrite !map_app, !concat_app. cbn [map concat].
      rewrite Hpnew, (Hmap pre Hpre), (Hmap post Hpost).
      rewrite !piece_app by assumption. rewrite Hp1, Hp3, Hpent.
      f_equal. rewrite !app_assoc. f_equal. unfold new_lines.
      rewrite slice_adjacent by lia. now rewrite slice_adjacent by lia.
  - rewrite Z.gtb_ltb in G. apply Z.ltb_ge in G.
    rewrite absorb_nothing by lia.
    split.
    + apply Forall_app. split; [eapply Forall_impl; [exact Hold | exact Hpre] |].
      constructor; [now apply Hold |]. constructor; [exact Henew |].
      eapply Forall_impl; [exact Hold | exact Hpost].
    + rewrite !map_app, !concat_app. cbn [map concat].
      rewrite Hpnew, (Hmap pre Hpre), (Hmap post Hpost).
      rewrite piece_app by assumption. rewrite Hp1, Hpent.
      f_equal. rewrite app_assoc. f_equal. unfold new_lines.
      rewrite slice_adjacent by lia. f_equal. lia.
Qed.

Lemma slice_slice {A : Type} (l : list A) (s c off length : Z) :
  0 <= s -> 0 <= off -> 0 <= length -> off + length <= c -> s + c <= Py.len l ->
  slice (slice l s (s + c)) off (off + length) = slice l (s + off) (s + off + length).
Proof.
  intros Hs Ho Hl Hfit Hb.
  rewrite (slice_in_bounds (slice l s (s + c))) by (rewrite ?slice_len; lia).
  rewrite (slice_in_bounds l s) by lia.
  rewrite (slice_in_bounds l (s + off)) by lia.
  rewrite skipn_firstn_comm, firstn_firstn, <- skipn_plus.
  f_equal; [lia |]. f_equal. lia.
Qed.

Lemma slice_app_mid {A : Type} (a b c : list A) (off length : Z) :
  0 <= off -> 0 <= length -> off + length <= Py.len b ->
  slice (a ++ b ++ c) (Py.len a + off) (Py.len a + off + length)
  = slice b off (off + length).
Proof.
  intros Ho Hl Hfit.
  pose proof (len_nonneg a). pose proof (len_nonneg c).
  rewrite (slice_in_bounds (a ++ b ++ c)) by (rewrite ?len_app; lia).
  rewrite (slice_in_bounds b) by lia.
  replace (Py.len a + off + length - (Py.len a + off)) with (off + length - off) by lia.
  replace (Z.to_nat (Py.len a + off)) with (List.length a + Z.to_nat off)%nat
    by (unfold Py.len; lia).
  rewrite skipn_plus, skipn_app, skipn_all, Nat.sub_diag. cbn [skipn app].
  rewrite skipn_app, firstn_app.
  replace (Z.to_nat (off + length - off) - List.length (skipn (Z.to_nat off) b))%nat
    with 0%nat by (rewrite length_skipn; unfold Py.len in *; lia).
  now rewrite firstn_O, app_nil_r.
Qed.

(** X14: on a well-formed table, when the requested range lies
    inside one entry ([get_block_range] returns a single position),
    [get_lines(start, length)] returns lines [start] to
    [start + length - 1] of the document. *)
Theorem get_lines_within_entry_doc (self : t) (start length i : Z) (doc : list str) :
  well_formed self ->
  0 <= length ->
  start + length <= len self ->
  get_block_range self start length = Ok (i, i) ->
  stitch self = Ok doc ->
  get_lines self start length = Ok (slice doc start (start + length)).
Proof.
  intros Hwf Hlen Hb Hr Hdoc.
  rewrite stitch_well_formed in Hdoc by assumption. injection Hdoc as <-.
  destruct (line_to_table_index self start) as [[i' offset]|e] eqn:Hloc;
    [| unfold get_block_range in Hr; rewrite Hloc in Hr; discriminate].
  pose proof Hloc as Hloc'. unfold line_to_table_index in Hloc'.
  apply locate_loop_ok in Hloc'.
  destruct Hloc' as (pre & ent & post & Ht & Hi & Hoff & Ho).
  rewrite Z.add_0_l in Hi, Hoff. subst i'.
  assert (Hs : start = sum (lengths pre) + offset) by lia.
  pose proof (single_span_fits self pre ent post start length offset i Ht Hloc Hs Hb Hr)
    as Hfit.
  unfold well_formed in Hwf. rewrite Ht in Hwf.
  apply Forall_app in Hwf. destruct Hwf as [Hpre Hrest].
  apply Forall_cons_iff in Hrest. destruct Hrest as [He Hpost].
  pose proof He as (He0 & He1 & He2 & block & Hblock & Hin).
  destruct (get_lines_within_entry self pre ent post block start length offset
              Ht (well_formed_nonneg _ _ Hpre) Hs Ho Hlen Hfit Hblock) as [_ ->].
  rewrite Ht, map_app, concat_app. cbn [map concat].
  rewrite Hs, <- (pieces_len (blocks self) pre Hpre).
  rewrite slice_app_mid by (rewrite ?piece_len; assumption || lia).
  unfold piece. rewrite Hblock. unfold TextBlock.get_lines, TextBlock.len in *.
  now rewrite slice_slice by lia.
Qed.


(** X15: [get_block_range(start, length)] returns whenever
    [line_to_table_index(start)] does, with the same first position and
    whatever [length] is, and raises the same exception when it does
    not. *)
Theorem get_block_range_defined (self : t) (start length : Z) :
  match line_to_table_index self start with
  | Ok (first, _) =>
      exists last,
        get_block_range self start length = Ok (first, last) /\
        first <= last < Py.len (table self)
  | Raise e => get_block_range self start length = Raise e
  end.
Proof.
  destruct (line_to_table_index self start) as [[first offset]|e] eqn:Hl.
  - now apply (get_block_range_total self start length first offset).
  - unfold get_block_range. now rewrite Hl.
Qed.

(** X16: on a table whose entries have non-negative lengths,
    a [start] that is not a line of the document makes
    [get_block_range], [get_lines] and [open_block] raise the
    invalid-line [ValueError], and [open_block] leaves the table as it
    was. *)
Theorem invalid_start_rejected (self : t) (start length : Z) :
  nonneg_lengths (table self) ->
  start < 0 \/ len self <= start ->
  get_block_range self start length = Raise (ValueError "Invalid line number") /\
  get_lines self start length = Raise (ValueError "Invalid line number") /\
  open_block start length self = (self, Raise (ValueError "Invalid line number")).
Proof.
  intros Hn H. pose proof (locate_out_of_range self start Hn H) as Hl.
  assert (Hr : forall n, get_block_range self start n
                         = Raise (ValueError "Invalid line number"))
    by (intro n; unfold get_block_range; now rewrite Hl).
  repeat split.
  - apply Hr.
  - unfold get_lines. now rewrite Hl.
  - unfold open_block. m_step. now rewrite Hr.
Qed.

(** X17: on a well-formed table, a successful
    [open_block(start, length)] whose range lies inside one entry leaves
    a well-formed table and does not change what [stitch()] returns. *)
Theorem open_block_within_entry_keeps_document (start length h i : Z) (self self' : t) :
  well_formed self ->
  0 <= length ->
  open_block start length self = (self', Ok h) ->
  get_block_range self start length = Ok (i, i) ->
  well_formed self' /\ stitch self' = stitch self.
Proof.
  intros Hwf Hlen H Hr.
  destruct (open_block_within_entry start length h i self self' Hwf Hlen H Hr)
    as [Hwf' Hdoc].
  split; [assumption |].
  rewrite !stitch_well_formed by assumption. now rewrite Hdoc.
Qed.

Lemma getitem_skipn {A : Type} (l : list A) (k : Z) (x : A) :
  0 <= k -> getitem l k = Ok x ->
  skipn (Z.to_nat k) l = x :: skipn (Z.to_nat (k + 1)) l.
Proof.
  intros Hk G. apply getitem_split in G; [| assumption].
  destruct G as (pre & post & -> & <-).
  replace (Z.to_nat (Py.len pre + 1)) with (List.length (pre ++ [x]))
    by (rewrite length_app; unfold Py.len; simpl; lia).
  unfold Py.len. rewrite Nat2Z.id.
  rewrite skipn_app, skipn_all, Nat.sub_diag. cbn [skipn app].
  replace (pre ++ x :: post) with ((pre ++ [x]) ++ post) by (now rewrite <- app_assoc).
  now rewrite skipn_app, skipn_all, Nat.sub_diag.
Qed.

Lemma span_count_done (rest : list Entry) (length_rem : Z) :
  length_rem <= 0 -> span_count rest length_rem = O.
Proof.
  intro H. destruct rest; cbn [span_count]; [reflexivity |].
  replace (length_rem >? 0) with false; [reflexivity |].
  symmetry. rewrite Z.gtb_ltb. now apply Z.ltb_ge.
Qed.

Lemma range_loop_count (tbl : list Entry) (first : Z) :
  forall fuel length_rem last_off,
    0 <= first + last_off ->
    Py.len tbl - (first + last_off) <= Z.of_nat fuel ->
    range_loop fuel tbl first length_rem last_off
    = Ok (last_off
          + Z.of_nat (span_count (skipn (Z.to_nat (first + last_off)) tbl) length_rem)).
Proof.
  induction fuel as [|fuel IH]; intros length_rem last_off H0 Hf; cbn [range_loop];
    destruct ((length_rem >? 0) && (first + last_off <? Py.len tbl)) eqn:G.
  - apply andb_true_iff in G. destruct G as [_ G]. apply Z.ltb_lt in G. lia.
  - apply andb_false_iff in G. rewrite Z.gtb_ltb, !Z.ltb_ge in G.
    destruct G as [G | G].
    + rewrite span_count_done by assumption. f_equal. lia.
    + rewrite skipn_all2 by (unfold Py.len in G; lia). cbn. f_equal. lia.
  - apply andb_true_iff in G. destruct G as [G1 G2]. apply Z.ltb_lt in G2.
    destruct (getitem_in_range tbl (first + last_off)) as [ent E]; [lia |].
    rewrite E. cbn [rbind].
    rewrite (getitem_skipn tbl (first + last_off) ent) by (assumption || lia).
    cbn [span_count]. rewrite G1.
    rewrite IH by lia.
    replace (first + (last_off + 1)) with (first + last_off + 1) by lia.
    f_equal. lia.
  - apply andb_false_iff in G. rewrite Z.gtb_ltb, !Z.ltb_ge in G.
    destruct G as [G | G].
    + rewrite span_count_done by assumption. f_equal. lia.
    + rewrite skipn_all2 by (unfold Py.len in G; lia). cbn. f_equal. lia.
Qed.

Lemma get_lines_loop_read (self : t) (first : Z) :
  forall n k acc length_rem,
    0 <= k ->
    Forall (fun ent => exists block, getitem (blocks self) (e_block ent) = Ok block)
      (firstn n (skipn (Z.to_nat k) (table self))) ->
    k + Z.of_nat n <= Py.len (table self) ->
    get_lines_loop self first 0 (range k (k + Z.of_nat n)) acc length_rem
    = Ok (acc ++ read_entries (blocks self)
                   (firstn n (skipn (Z.to_nat k) (table self))) length_rem).
Proof.
  induction n as [|n IH]; intros k acc length_rem Hk Hok Hb.
  - rewrite Z.add_0_r, range_nil. cbn. now rewrite app_nil_r.
  - rewrite range_cons by lia. cbn [get_lines_loop].
    destruct (getitem_in_range (table self) k) as [ent E]; [lia |].
    rewrite E. cbn [rbind].
    rewrite (getitem_skipn (table self) k ent) in * by assumption.
    cbn [firstn read_entries] in *.
    apply Forall_cons_iff in Hok. destruct Hok as [[block Hblock] Hok].
    rewrite Hblock. cbn [rbind].
    replace (k + Z.of_nat (S n)) with (k + 1 + Z.of_nat n) by lia.
    rewrite IH by (assumption || lia).
    f_equal. rewrite <- app_assoc. f_equal. f_equal.
    unfold piece. cbn [e_block e_start e_length]. rewrite Hblock.
    rewrite !Z.add_0_r, !Z.sub_0_r. now destruct (k =? first).
Qed.

Lemma slice_after {A : Type} (a b : list A) (n : Z) :
  0 <= n <= Py.len b ->
  slice (a ++ b) (Py.len a) (Py.len a + n) = firstn (Z.to_nat n) b.
Proof.
  intro H. pose proof (len_nonneg a).
  rewrite slice_in_bounds by (rewrite ?len_app; lia).
  replace (Py.len a + n - Py.len a) with n by lia.
  unfold Py.len. rewrite Nat2Z.id, skipn_app, skipn_all, Nat.sub_diag.
  reflexivity.
Qed.

Lemma span_count_le (rest : list Entry) :
  forall length_rem, (span_count rest length_rem <= List.length rest)%nat.
Proof.
  induction rest as [|ent rest IH]; intro r; cbn [span_count List.length]; [lia |].
  destruct (r >? 0); [specialize (IH (r - e_length ent)) |]; lia.
Qed.

Lemma Forall_firstn_of {A : Type} (P : A -> Prop) (n : nat) (l : list A) :
  Forall P l -> Forall P (firstn n l).
Proof.
  intro H. revert n. induction H as [|x l Hx _ IH]; intros [|n]; cbn [firstn];
    constructor; [assumption | apply IH].
Qed.

Lemma piece_prefix (bs : list TextBlock.t) (ent : Entry) (m : Z) :
  entry_ok bs ent -> 0 <= m <= e_length ent ->
  piece bs (mkEntry (e_block ent) (e_start ent) m)
  = firstn (Z.to_nat m) (piece bs ent).
Proof.
  intros (_ & H1 & H2 & block & Hg & Hb) Hm. unfold piece.
  cbn [e_block e_start e_length]. rewrite Hg.
  unfold TextBlock.get_lines, TextBlock.len in *.
  rewrite !slice_in_bounds by lia.
  rewrite firstn_firstn. f_equal. lia.
Qed.

Lemma read_entries_firstn (bs : list TextBlock.t) (post : list Entry) :
  Forall (entry_ok bs) post ->
  forall length_rem,
    length_rem <= sum (lengths post) ->
    read_entries bs (firstn (span_count post length_rem) post) length_rem
    = firstn (Z.to_nat length_rem) (concat (map (piece bs) post)).
Proof.
  induction 1 as [|ent post He Hpost IH]; intros r Hr.
  - cbn. now rewrite firstn_nil.
  - cbn [lengths map] in Hr. fold (lengths post) in Hr. rewrite sum_cons in Hr.
    pose proof He as (_ & _ & Hc & _).
    cbn [span_count]. destruct (r >? 0) eqn:G.
    + rewrite Z.gtb_ltb in G. apply Z.ltb_lt in G.
      cbn [firstn read_entries map concat].
      rewrite IH by lia. rewrite piece_prefix by (assumption || lia).
      rewrite firstn_app. f_equal.
      * destruct (Z_le_gt_dec r (e_length ent)).
        -- now rewrite Z.min_l by lia.
        -- rewrite Z.min_r by lia.
           pose proof (piece_len bs ent He) as Hl. unfold Py.len in Hl.
           now rewrite !firstn_all2 by lia.
      * f_equal. pose proof (piece_len bs ent He) as Hl. unfold Py.len in Hl. lia.
    + rewrite Z.gtb_ltb in G. apply Z.ltb_ge in G.
      replace (Z.to_nat r) with O by lia. reflexivity.
Qed.

(** Reading from the first line of an entry, over any number of
    entries. *)
Lemma get_lines_from_entry_start (self : t) (pre : list Entry) (ent : Entry)
    (post : list Entry) (length : Z) :
  well_formed self ->
  table self = pre ++ ent :: post ->
  0 < e_length ent ->
  0 <= length ->
  length <= e_length ent + sum (lengths post) ->
  line_to_table_index self (sum (lengths pre)) = Ok (Py.len pre, 0) /\
  get_lines self (sum (lengths pre)) length
  = Ok (firstn (Z.to_nat length)
          (concat (map (piece (blocks self)) (ent :: post)))).
Proof.
  intros Hwf Ht Hpos Hlen Hfit.
  unfold well_formed in Hwf. rewrite Ht in Hwf.
  apply Forall_app in Hwf. destruct Hwf as [Hpre Hrest].
  pose proof Hrest as Hrest0.
  apply Forall_cons_iff in Hrest. destruct Hrest as [He Hpost].
  pose proof (len_nonneg pre) as Hp.
  set (start := sum (lengths pre)).
  set (n := span_count post (length - e_length ent)).
  assert (Hloc : line_to_table_index self start = Ok (Py.len pre, 0)).
  { unfold line_to_table_index. rewrite Ht.
    rewrite (locate_loop_at_line pre ent post 0 0 start 0).
    - now rewrite Z.add_0_l.
    - now apply (well_formed_nonneg (blocks self)).
    - lia.
    - unfold start. lia. }
  split; [exact Hloc |].
  assert (Hskip : skipn (Z.to_nat (Py.len pre + 1)) (table self) = post).
  { rewrite Ht.
    replace (Z.to_nat (Py.len pre + 1)) with (List.length (pre ++ [ent]))
      by (rewrite length_app; unfold Py.len; simpl; lia).
    replace (pre ++ ent :: post) with ((pre ++ [ent]) ++ post)
      by (now rewrite <- app_assoc).
    now rewrite skipn_app, skipn_all, Nat.sub_diag. }
  assert (Hskip0 : skipn (Z.to_nat (Py.len pre)) (table self) = ent :: post).
  { rewrite Ht. unfold Py.len.
    now rewrite Nat2Z.id, skipn_app, skipn_all, Nat.sub_diag. }
  assert (Hr : get_block_range self start length
               = Ok (Py.len pre, Py.len pre + Z.of_nat n)).
  { unfold get_block_range. rewrite Hloc. cbn [rbind].
    rewrite Ht at 1. rewrite getitem_mid. cbn [rbind].
    rewrite range_loop_count by (unfold Py.len; lia).
    rewrite Hskip, Z.sub_0_r. cbn [rbind]. fold n. f_equal. f_equal. lia. }
  unfold get_lines.
  replace (length <? 0) with false by (symmetry; apply Z.ltb_ge; lia).
  rewrite Hloc. cbn [rbind]. rewrite Hr. cbn [rbind].
  pose proof (span_count_le post (length - e_length ent)) as Hn. fold n in Hn.
  replace (Py.len pre + Z.of_nat n + 1) with (Py.len pre + Z.of_nat (S n)) by lia.
  rewrite get_lines_loop_read.
  - rewrite Hskip0. cbn [firstn read_entries app map concat].
    unfold n. rewrite read_entries_firstn by (assumption || lia).
    pose proof He as (_ & _ & Hc & _).
    rewrite piece_prefix by (assumption || lia).
    rewrite firstn_app. f_equal. f_equal.
    + destruct (Z_le_gt_dec length (e_length ent)).
      * now rewrite Z.min_l by lia.
      * rewrite Z.min_r by lia.
        pose proof (piece_len (blocks self) ent He) as Hl. unfold Py.len in Hl.
        now rewrite !firstn_all2 by lia.
    + f_equal. pose proof (piece_len (blocks self) ent He) as Hl.
      unfold Py.len in Hl. lia.
  - lia.
  - rewrite Hskip0. apply Forall_firstn_of. now apply well_formed_lookups.
  - rewrite Ht, len_app, len_cons. unfold Py.len in *. lia.
Qed.

Lemma get_lines_from_start_doc (self : t) (start length i : Z) (doc : list str) :
  well_formed self ->
  line_to_table_index self start = Ok (i, 0) ->
  0 <= length ->
  start + length <= len self ->
  stitch self = Ok doc ->
  get_lines self start length = Ok (slice doc start (start + length)).
Proof.
  intros Hwf Hloc Hlen Hb Hdoc.
  rewrite stitch_well_formed in Hdoc by assumption. injection Hdoc as <-.
  pose proof Hloc as Hloc'. unfold line_to_table_index in Hloc'.
  apply locate_loop_ok in Hloc'.
  destruct Hloc' as (pre & ent & post & Ht & Hi & Hoff & Ho).
  rewrite Z.add_0_l in Hi, Hoff. assert (Hs : start = sum (lengths pre)) by lia.
  pose proof Hwf as Hwf0. unfold well_formed in Hwf0. rewrite Ht in Hwf0.
  apply Forall_app in Hwf0. destruct Hwf0 as [Hpre Hrest].
  assert (Hfit : length <= e_length ent + sum (lengths post)).
  { unfold len in Hb. rewrite Ht in Hb.
    change (map e_length (pre ++ ent :: post)) with (lengths (pre ++ ent :: post)) in Hb.
    rewrite lengths_app, sum_app in Hb. cbn [lengths map] in Hb.
    fold (lengths post) in Hb. rewrite sum_cons in Hb. lia. }
  destruct (get_lines_from_entry_start self pre ent post length Hwf Ht) as [_ Hg];
    try lia.
  rewrite Hs, Hg, Ht, map_app, concat_app.
  rewrite <- (pieces_len (blocks self) pre Hpre).
  rewrite slice_after; [reflexivity |].
  rewrite (pieces_len (blocks self) (ent :: post) Hrest).
  cbn [lengths map]. fold (lengths post). rewrite sum_cons. lia.
Qed.

(** X18: on a well-formed table, when [start] is the first line
    of an entry, [get_lines(start, length)] returns lines [start] to
    [start + length - 1] of the document, over however many entries the
    range runs. *)
Theorem get_lines_at_entry_start (self : t) (start length i : Z) (doc : list str) :
  well_formed self ->
  line_to_table_index self start = Ok (i, 0) ->
  0 <= length ->
  start + length <= len self ->
  stitch self = Ok doc ->
  get_lines self start length = Ok (slice doc start (start + length)).
Proof. apply get_lines_from_start_doc. Qed.

(** X19: on a well-formed table of a non-empty document,
    [get_lines(0, -1)] returns what [stitch()] returns. *)
Theorem get_lines_whole_document (self : t) (doc : list str) :
  well_formed self ->
  0 < len self ->
  stitch self = Ok doc ->
  get_lines self 0 (-1) = Ok doc.
Proof.
  intros Hwf Hpos Hdoc.
  pose proof (well_formed_nonneg _ _ Hwf) as Hn.
  destruct (locate_loop_in_range (table self) 0 0 0 Hn) as (i & off & Hloc);
    [unfold len in Hpos; fold (lengths (table self)) in Hpos; lia |].
  fold (line_to_table_index self 0) in Hloc.
  destruct (locate_start self 0 i off Hloc) as (ent & _ & _ & Hoff & Hs).
  assert (0 <= get_block_start self i).
  { unfold get_block_start. apply lengths_sum_nonneg.
    unfold nonneg_lengths, slice. apply Forall_firstn_of.
    rewrite <- (firstn_skipn (Z.to_nat (clamp_bound (Py.len (table self)) 0)) (table self))
      in Hn.
    apply Forall_app in Hn. apply Hn. }
  assert (off = 0) by lia. subst off.
  assert (Hall : get_lines self 0 (len self) = Ok (slice doc 0 (0 + len self)))
    by (apply (get_lines_from_start_doc self 0 (len self) i doc); assumption || lia).
  unfold get_lines in *. cbn [Z.ltb Z.compare].
  replace (len self <? 0) with false in Hall by (symmetry; apply Z.ltb_ge; lia).
  rewrite Hall. f_equal.
  rewrite stitch_well_formed in Hdoc by assumption. injection Hdoc as <-.
  change (len self) with (sum (lengths (table self))).
  rewrite Z.add_0_l, <- (pieces_len (blocks self) (table self) Hwf). apply slice_all.
Qed.

Lemma piece_suffix (bs : list TextBlock.t) (ent : Entry) (r : Z) :
  entry_ok bs ent -> 0 <= r <= e_length ent ->
  entry_ok bs (mkEntry (e_block ent) (e_start ent + r) (e_length ent - r)) /\
  piece bs (mkEntry (e_block ent) (e_start ent + r) (e_length ent - r))
  = skipn (Z.to_nat r) (piece bs ent).
Proof.
  intros (H0 & H1 & H2 & block & Hg & Hb) Hr. split.
  - repeat split; cbn [e_block e_start e_length]; try lia.
    exists block. split; [assumption | lia].
  - unfold piece. cbn [e_block e_start e_length]. rewrite Hg.
    unfold TextBlock.get_lines, TextBlock.len in *.
    rewrite !slice_in_bounds by lia.
    rewrite skipn_firstn_comm, <- skipn_plus. f_equal; [lia |]. f_equal. lia.
Qed.

Lemma absorb_pieces (bs : list TextBlock.t) (post : list Entry) :
  Forall (entry_ok bs) post ->
  forall r,
    0 <= r <= sum (lengths post) ->
    Forall (entry_ok bs) (absorb r post) /\
    concat (map (piece bs) (absorb r post))
    = skipn (Z.to_nat r) (concat (map (piece bs) post)).
Proof.
  induction 1 as [|ent post He Hpost IH]; intros r Hr.
  - cbn. rewrite skipn_nil. split; [constructor | reflexivity].
  - cbn [lengths map] in Hr. fold (lengths post) in Hr. rewrite sum_cons in Hr.
    pose proof (piece_len bs ent He) as Hl. unfold Py.len in Hl.
    cbn [absorb]. destruct (r >? 0) eqn:G0.
    + destruct (r >? e_length ent) eqn:G1.
      * rewrite Z.gtb_ltb in G1. apply Z.ltb_lt in G1.
        destruct (IH (r - e_length ent)) as [Hok Hp]; [lia |].
        split; [assumption |]. rewrite Hp. cbn [map concat].
        rewrite skipn_app, (skipn_all2 (piece bs ent)) by lia. cbn [app]. f_equal. lia.
      * rewrite Z.gtb_ltb in G0, G1. apply Z.ltb_lt in G0. apply Z.ltb_ge in G1.
        destruct (piece_suffix bs ent r He) as [Hok Hp]; [lia |].
        split; [now constructor |].
        cbn [map concat]. rewrite Hp, skipn_app.
        replace (Z.to_nat r - List.length (piece bs ent))%nat with O by lia.
        reflexivity.
    + rewrite Z.gtb_ltb in G0. apply Z.ltb_ge in G0.
      replace (Z.to_nat r) with O by lia.
      split; [now constructor | reflexivity].
Qed.

Lemma open_block_at_entry_start (start length h i : Z) (self self' : t) :
  well_formed self ->
  0 <= length ->
  open_block start length self = (self', Ok h) ->
  line_to_table_index self start = Ok (i, 0) ->
  well_formed self' /\
  concat (map (piece (blocks self')) (table self'))
  = concat (map (piece (blocks self)) (table self)).
Proof.
  intros Hwf Hlen H Hloc. pose proof H as H0.
  destruct (open_block_cases start length self)
    as [(e & _ & E) | (pre & ent & post & offset & block_lines & Ht & Hs & Ho & Hb & Hg & E)];
    rewrite E in H; [discriminate |].
  pose proof Hwf as Hwf0. unfold well_formed in Hwf0. rewrite Ht in Hwf0.
  apply Forall_app in Hwf0. destruct Hwf0 as [Hpre Hrest].
  pose proof Hrest as Hrest0.
  apply Forall_cons_iff in Hrest. destruct Hrest as [He Hpost].
  pose proof (well_formed_nonneg (blocks self) pre Hpre) as Hnpre.
  assert (Hoff : offset = 0).
  { unfold line_to_table_index in Hloc. rewrite Ht in Hloc.
    rewrite (locate_loop_at_line pre ent post 0 0 start offset) in Hloc
      by (assumption || lia).
    now injection Hloc as _ ->. }
  subst offset. rewrite Z.add_0_r in Hs.
  assert (Hfit : length <= e_length ent + sum (lengths post)).
  { unfold len in Hb. rewrite Ht in Hb.
    change (map e_length (pre ++ ent :: post)) with (lengths (pre ++ ent :: post)) in Hb.
    rewrite lengths_app, sum_app in Hb. cbn [lengths map] in Hb.
    fold (lengths post) in Hb. rewrite sum_cons in Hb. lia. }
  destruct (Z_le_gt_dec length (e_length ent)) as [Hsmall | Hbig].
  - (* the region ends inside the same entry *)
    destruct He as (He0 & He1 & He2 & block & Hblock & Hin).
    destruct (get_lines_within_entry self pre ent post block start length 0
                Ht Hnpre) as [Hr _]; try (assumption || lia).
    exact (open_block_within_entry start length h (Py.len pre) self self'
             Hwf Hlen H0 Hr).
  - (* the region runs into the entries that follow *)
    injection H as <- <-. unfold well_formed. cbn [blocks table].
    destruct (get_lines_from_entry_start self pre ent post length Hwf Ht)
      as [_ Hg']; try lia.
    rewrite <- Hs, Hg in Hg'. injection Hg' as Hlines.
    set (bs := blocks self) in *.
    set (new_block := TextBlock.init block_lines None).
    pose proof (piece_len bs ent He) as Hpl.
    pose proof (pieces_len bs post Hpost) as Hql.
    assert (Hnl : Py.len block_lines = length).
    { rewrite Hlines. unfold Py.len in *. cbn [map concat].
      rewrite length_firstn, length_app. lia. }
    assert (Hold : forall e, entry_ok bs e -> entry_ok (bs ++ [new_block]) e)
      by (intros; now apply entry_ok_app).
    assert (Hmap : forall tbl, Forall (entry_ok bs) tbl ->
                     map (piece (bs ++ [new_block])) tbl = map (piece bs) tbl).
    { intros tbl Htbl. apply map_ext_in. intros e Hein.
      apply piece_app. rewrite Forall_forall in Htbl. now apply Htbl. }
    pose proof He as (He0 & He1 & He2 & block & Hblock & Hin).
    assert (He1ok : entry_ok bs (mkEntry (e_block ent) (e_start ent) 0)).
    { repeat split; cbn [e_block e_start e_length]; try lia.
      exists block. split; [assumption | lia]. }
    assert (Hp1 : piece bs (mkEntry (e_block ent) (e_start ent) 0) = []).
    { unfold piece. cbn [e_block e_start e_length]. rewrite Hblock.
      unfold TextBlock.get_lines. rewrite Z.add_0_r. apply slice_empty. }
    assert (Henew : entry_ok (bs ++ [new_block]) (mkEntry (Py.len bs) 0 length)).
    { repeat split; cbn [e_block e_start e_length]; try lia; [apply len_nonneg |].
      exists new_block. split; [apply getitem_last |].
      unfold TextBlock.len, new_block. cbn [TextBlock.init TextBlock.lines]. lia. }
    assert (Hpnew : piece (bs ++ [new_block]) (mkEntry (Py.len bs) 0 length) = block_lines).
    { unfold piece. cbn [e_block e_start e_length]. rewrite getitem_last.
      unfold TextBlock.get_lines, new_block. cbn [TextBlock.init TextBlock.lines].
      rewrite Z.add_0_l, <- Hnl. apply slice_all. }
    unfold opened_table.
    replace (e_length ent - (0 + length) >? 0) with false
      by (symmetry; rewrite Z.gtb_ltb; apply Z.ltb_ge; lia).
    destruct (absorb_pieces bs post Hpost (-1 * (e_length ent - (0 + length))))
      as [Hak Hap]; [lia |].
    split.
    + apply Forall_app. split; [eapply Forall_impl; [exact Hold | exact Hpre] |].
      constructor; [now apply Hold |]. constructor; [exact Henew |].
      eapply Forall_impl; [exact Hold | exact Hak].
    + rewrite Ht, !map_app, !concat_app. cbn [map concat].
      rewrite Hpnew, (Hmap pre Hpre), (Hmap _ Hak).
      rewrite piece_app by assumption. rewrite Hp1, Hap. cbn [app].
      f_equal. rewrite Hlines. cbn [map concat].
      rewrite firstn_app, firstn_all2 by (unfold Py.len in *; lia).
      rewrite <- app_assoc. f_equal.
      replace (Z.to_nat (-1 * (e_length ent - (0 + length))))
        with (Z.to_nat length - List.length (piece bs ent))%nat
        by (unfold Py.len in *; lia).
      apply firstn_skipn.
Qed.













Lemma ages_refl (bs : list TextBlock.t) : Forall2 ages bs bs.
Proof. induction bs; constructor; [split; auto | assumption]. Qed.

Lemma grows_refl (bs : list TextBlock.t) : grows bs bs.
Proof. exists bs, []. split; [now rewrite app_nil_r | apply ages_refl]. Qed.

Lemma ages_trans_list (l1 l2 : list TextBlock.t) :
  Forall2 ages l1 l2 -> forall l3, Forall2 ages l2 l3 -> Forall2 ages l1 l3.
Proof.
  induction 1 as [|a b l1 l2 [Hab1 Hab2] _ IH]; intros l3 H23; inversion H23; subst.
  - constructor.
  - constructor; [| now apply IH].
    match goal with H : ages b _ |- _ => destruct H as [Hbc1 Hbc2] end.
    split; [congruence | auto].
Qed.

Lemma grows_trans (l1 l2 l3 : list TextBlock.t) :
  grows l1 l2 -> grows l2 l3 -> grows l1 l3.
Proof.
  intros (k1 & a1 & -> & H1) (k2 & a2 & -> & H2).
  apply Forall2_app_inv_l in H2. destruct H2 as (k2' & a2' & Hk & Ha & ->).
  exists k2', (a2' ++ a2). split; [now rewrite app_assoc |].
  now apply (ages_trans_list l1 k1).
Qed.

Lemma step_grows (self : t) (o : op) : grows (blocks self) (blocks (step self o)).
Proof.
  destruct o as [start length | index]; cbn [step].
  - destruct (open_block_cases start length self)
      as [(e & _ & E) | (pre & ent & post & offset & block_lines & _ & _ & _ & _ & _ & E)];
      rewrite E; cbn [fst blocks]; [apply grows_refl |].
    eexists _, _. split; [reflexivity | apply ages_refl].
  - destruct (close_block index self) as [self' [[]|e]] eqn:E.
    + apply close_block_ok_inv in E. destruct E as (pre & b & post & Hb & _ & ->).
      cbn [fst blocks]. rewrite Hb.
      exists (pre ++ TextBlock.close b :: post), []. split; [now rewrite app_nil_r |].
      apply Forall2_app; [apply ages_refl |].
      constructor; [split; [reflexivity | reflexivity] | apply ages_refl].
    + destruct (close_block_cases index self) as [E' | [bs E']]; rewrite E' in E.
      * injection E as <- _. apply grows_refl.
      * discriminate.
Qed.

(** X21: over any sequence of [open_block] and [close_block]
    calls the block list only grows: every block keeps its position and
    its lines, and a closed block stays closed. *)
Theorem blocks_only_grow (ops : list op) (self : t) :
  grows (blocks self) (blocks (run ops self)).
Proof.
  revert self. induction ops as [|o ops IH]; intro self; cbn [run fold_left].
  - apply grows_refl.
  - fold (run ops (step self o)).
    apply (grows_trans _ (blocks (step self o))); [apply step_grows | apply IH].
Qed.











(** X23: on a well-formed table, a successful
    [open_block(start, length)] whose [start] is the first line of an
    entry leaves a well-formed table and does not change what [stitch()]
    returns, over however many entries the region runs. *)
Theorem open_block_at_entry_start_keeps_document (start length h i : Z) (self self' : t) :
  well_formed self ->
  0 <= length ->
  open_block start length self = (self', Ok h) ->
  line_to_table_index self start = Ok (i, 0) ->
  well_formed self' /\ stitch self' = stitch self.
Proof.
  intros Hwf Hlen H Hloc.
  destruct (open_block_at_entry_start start length h i self self' Hwf Hlen H Hloc)
    as [Hwf' Hdoc].
  split; [assumption |].
  rewrite !stitch_well_formed by assumption. now rewrite Hdoc.
Qed.

(** X24: [get_block_start] is 0 at position 0, grows by the
    length of the entry at [k] from [k] to [k + 1], and is the length of
    the document at every position from the end of the table on. *)
Theorem get_block_start_steps (self : t) :
  get_block_start self 0 = 0 /\
  (forall k ent, 0 <= k -> getitem (table self) k = Ok ent ->
                 get_block_start self (k + 1) = get_block_start self k + e_length ent) /\
  (forall k, Py.len (table self) <= k -> get_block_start self k = len self).
Proof.
  unfold get_block_start, len. repeat split.
  - now rewrite slice_empty.
  - intros k ent Hk G. now apply block_start_step.
  - intros k Hk. f_equal. f_equal.
    pose proof (len_nonneg (table self)) as Hn.
    unfold slice, clamp_bound.
    replace (0 <? 0) with false by reflexivity.
    replace (k <? 0) with false by (symmetry; apply Z.ltb_ge; lia).
    rewrite (Z.min_l 0), (Z.min_r k) by lia. rewrite Z.sub_0_r. unfold Py.len.
    rewrite Nat2Z.id. cbn [Z.to_nat skipn]. apply firstn_all.
Qed.

(** ** Instances *)

Ltac concrete_entry_ok :=
  repeat split; try (vm_compute; discriminate);
  eexists; split; [vm_compute; reflexivity | vm_compute; discriminate].

Ltac concrete_well_formed :=
  unfold well_formed;
  repeat (apply Forall_cons; [concrete_entry_ok |]); apply Forall_nil.

Ltac concrete_nonneg :=
  unfold nonneg_lengths;
  repeat (apply Forall_cons; [vm_compute; discriminate |]); apply Forall_nil.

Lemma after_close_1_well_formed : well_formed after_close_1.
Proof. concrete_well_formed. Qed.

Lemma after_open_2_3_nonneg : nonneg_lengths (table after_open_2_3).
Proof. concrete_nonneg. Qed.

Lemma table10_nonneg : nonneg_lengths (table table10).
Proof. concrete_nonneg. Qed.

Lemma line_to_table_index_range_witness :
  nonneg_lengths (table after_open_2_3) /\
  0 <= 4 < len after_open_2_3 /\
  exists idx off, line_to_table_index after_open_2_3 4 = Ok (idx, off).
Proof.
  assert (H1 : nonneg_lengths (table after_open_2_3)) by exact after_open_2_3_nonneg.
  assert (H2 : 0 <= 4 < len after_open_2_3) by (vm_compute; split; [discriminate | reflexivity]).
  split; [exact H1 | split; [exact H2 |]].
  exact (proj1 (line_to_table_index_range after_open_2_3 4 H1) H2).
Defined.

Lemma line_to_table_index_start_witness :
  line_to_table_index after_open_2_3 4 = Ok (1, 2) /\
  exists ent,
    getitem (table after_open_2_3) 1 = Ok ent /\
    0 <= 1 < Py.len (table after_open_2_3) /\
    0 <= 2 < e_length ent /\
    get_block_start after_open_2_3 1 + 2 = 4.
Proof.
  assert (H : line_to_table_index after_open_2_3 4 = Ok (1, 2)) by (vm_compute; reflexivity).
  split; [exact H | exact (line_to_table_index_start after_open_2_3 4 1 2 H)].
Defined.

Lemma get_block_start_steps_witness :
  0 <= 1 /\
  getitem (table after_open_2_3) 1 = Ok (mkEntry 1 0 3) /\
  get_block_start after_open_2_3 (1 + 1) = get_block_start after_open_2_3 1 + 3.
Proof.
  assert (H1 : 0 <= 1) by lia.
  assert (H2 : getitem (table after_open_2_3) 1 = Ok (mkEntry 1 0 3))
    by (vm_compute; reflexivity).
  split; [exact H1 | split; [exact H2 |]].
  exact (proj1 (proj2 (get_block_start_steps after_open_2_3)) 1 (mkEntry 1 0 3) H1 H2).
Defined.

Lemma get_block_range_spec_witness :
  get_block_range after_close_1 1 6 = Ok (0, 2) /\
  (exists offset, line_to_table_index after_close_1 1 = Ok (0, offset)) /\
  0 <= 2 < Py.len (table after_close_1) /\
  (1 + 6 <= get_block_start after_close_1 (2 + 1) \/
   2 = Py.len (table after_close_1) - 1) /\
  (forall k, 0 <= k < 2 -> get_block_start after_close_1 (k + 1) < 1 + 6).
Proof.
  assert (H : get_block_range after_close_1 1 6 = Ok (0, 2)) by (vm_compute; reflexivity).
  split; [exact H | exact (get_block_range_spec after_close_1 1 6 0 2 H)].
Defined.

Lemma invalid_start_rejected_witness :
  nonneg_lengths (table table10) /\
  (10 < 0 \/ len table10 <= 10) /\
  get_block_range table10 10 1 = Raise (ValueError "Invalid line number") /\
  get_lines table10 10 1 = Raise (ValueError "Invalid line number") /\
  open_block 10 1 table10 = (table10, Raise (ValueError "Invalid line number")).
Proof.
  assert (H1 : nonneg_lengths (table table10)) by exact table10_nonneg.
  assert (H2 : 10 < 0 \/ len table10 <= 10) by (right; vm_compute; discriminate).
  split; [exact H1 | split; [exact H2 | exact (invalid_start_rejected table10 10 1 H1 H2)]].
Defined.

Lemma get_lines_within_entry_doc_witness :
  well_formed after_close_1 /\
  0 <= 2 /\
  6 + 2 <= len after_close_1 /\
  get_block_range after_close_1 6 2 = Ok (2, 2) /\
  stitch after_close_1 = Ok ten_lines /\
  get_lines after_close_1 6 2 = Ok (slice ten_lines 6 (6 + 2)).
Proof.
  assert (H1 : well_formed after_close_1) by exact after_close_1_well_formed.
  assert (H2 : 0 <= 2) by lia.
  assert (H3 : 6 + 2 <= len after_close_1) by (vm_compute; discriminate).
  assert (H4 : get_block_range after_close_1 6 2 = Ok (2, 2)) by (vm_compute; reflexivity).
  assert (H5 : stitch after_close_1 = Ok ten_lines) by (vm_compute; reflexivity).
  repeat (split; [assumption |]).
  exact (get_lines_within_entry_doc after_close_1 6 2 2 ten_lines H1 H2 H3 H4 H5).
Defined.

Lemma get_lines_at_entry_start_witness :
  well_formed after_close_1 /\
  line_to_table_index after_close_1 2 = Ok (1, 0) /\
  0 <= 5 /\
  2 + 5 <= len after_close_1 /\
  stitch after_close_1 = Ok ten_lines /\
  get_lines after_close_1 2 5 = Ok (slice ten_lines 2 (2 + 5)).
Proof.
  assert (H1 : well_formed after_close_1) by exact after_close_1_well_formed.
  assert (H2 : line_to_table_index after_close_1 2 = Ok (1, 0)) by (vm_compute; reflexivity).
  assert (H3 : 0 <= 5) by lia.
  assert (H4 : 2 + 5 <= len after_close_1) by (vm_compute; discriminate).
  assert (H5 : stitch after_close_1 = Ok ten_lines) by (vm_compute; reflexivity).
  repeat (split; [assumption |]).
  exact (get_lines_at_entry_start after_close_1 2 5 1 ten_lines H1 H2 H3 H4 H5).
Defined.

Lemma get_lines_whole_document_witness :
  well_formed after_close_1 /\
  0 < len after_close_1 /\
  stitch after_close_1 = Ok ten_lines /\
  get_lines after_close_1 0 (-1) = Ok ten_lines.
Proof.
  assert (H1 : well_formed after_close_1) by exact after_close_1_well_formed.
  assert (H2 : 0 < len after_close_1) by (vm_compute; reflexivity).
  assert (H3 : stitch after_close_1 = Ok ten_lines) by (vm_compute; reflexivity).
  repeat (split; [assumption |]).
  exact (get_lines_whole_document after_close_1 ten_lines H1 H2 H3).
Defined.

Lemma stitch_length_witness :
  well_formed after_close_1 /\
  exists doc, stitch after_close_1 = Ok doc /\ Py.len doc = len after_close_1.
Proof.
  assert (H1 : well_formed after_close_1) by exact after_close_1_well_formed.
  split; [exact H1 | exact (stitch_length after_close_1 H1)].
Defined.

Lemma open_block_refused_on_open_entry_witness :
  line_to_table_index after_open_2_3 3 = Ok (1, 1) /\
  getitem (table after_open_2_3) 1 = Ok (mkEntry 1 0 3) /\
  getitem (blocks after_open_2_3) (e_block (mkEntry 1 0 3))
  = Ok (TextBlock.mk true (firstn 3 (skipn 2 ten_lines))) /\
  TextBlock.is_open (TextBlock.mk true (firstn 3 (skipn 2 ten_lines))) = true /\
  open_block 3 2 after_open_2_3
  = (after_open_2_3, Raise (ValueError "Illegal block request")).
Proof.
  assert (H1 : line_to_table_index after_open_2_3 3 = Ok (1, 1)) by (vm_compute; reflexivity).
  assert (H2 : getitem (table after_open_2_3) 1 = Ok (mkEntry 1 0 3))
    by (vm_compute; reflexivity).
  assert (H3 : getitem (blocks after_open_2_3) (e_block (mkEntry 1 0 3))
               = Ok (TextBlock.mk true (firstn 3 (skipn 2 ten_lines))))
    by (vm_compute; reflexivity).
  assert (H4 : TextBlock.is_open (TextBlock.mk true (firstn 3 (skipn 2 ten_lines))) = true)
    by reflexivity.
  repeat (split; [assumption |]).
  exact (open_block_refused_on_open_entry 3 2 1 1 after_open_2_3 _ _ H1 H2 H3 H4).
Defined.

Lemma open_block_locks_region_witness :
  nonneg_lengths (table table10) /\
  open_block 2 3 table10 = (after_open_2_3, Ok 1) /\
  2 <= 4 < 2 + 3 /\
  open_block 4 1 after_open_2_3
  = (after_open_2_3, Raise (ValueError "Illegal block request")).
Proof.
  assert (H1 : nonneg_lengths (table table10)) by exact table10_nonneg.
  assert (H2 : open_block 2 3 table10 = (after_open_2_3, Ok 1)) by (vm_compute; reflexivity).
  assert (H3 : 2 <= 4 < 2 + 3) by lia.
  repeat (split; [assumption |]).
  exact (open_block_locks_region 2 3 1 4 1 table10 after_open_2_3 H1 H2 H3).
Defined.

Lemma open_block_success_bounds_witness :
  open_block 2 3 table10 = (after_open_2_3, Ok 1) /\
  nonneg_lengths (table table10) /\
  2 + 3 <= len table10 /\ 0 <= 2 < len table10.
Proof.
  assert (H1 : open_block 2 3 table10 = (after_open_2_3, Ok 1)) by (vm_compute; reflexivity).
  assert (H2 : nonneg_lengths (table table10)) by exact table10_nonneg.
  split; [exact H1 | split; [exact H2 |]].
  split.
  - exact (proj1 (open_block_success_bounds 2 3 1 table10 after_open_2_3 H1)).
  - exact (proj2 (open_block_success_bounds 2 3 1 table10 after_open_2_3 H1) H2).
Defined.

Lemma open_block_result_witness :
  open_block 6 2 after_open_2_3 = (after_open_6_2, Ok 3) /\
  exists block_lines,
    get_lines after_open_2_3 6 2 = Ok block_lines /\
    blocks after_open_6_2 = blocks after_open_2_3 ++ [TextBlock.mk true block_lines] /\
    getitem (table after_open_6_2) 3
    = Ok (mkEntry (Py.len (blocks after_open_2_3)) 0 2) /\
    getitem (blocks after_open_6_2) (Py.len (blocks after_open_2_3))
    = Ok (TextBlock.mk true block_lines).
Proof.
  assert (H : open_block 6 2 after_open_2_3 = (after_open_6_2, Ok 3))
    by (vm_compute; reflexivity).
  split; [exact H | exact (open_block_result 6 2 3 after_open_2_3 after_open_6_2 H)].
Defined.

Lemma open_block_within_entry_keeps_document_witness :
  well_formed after_close_1 /\
  0 <= 2 /\
  open_block 6 2 after_close_1 = (fst (open_block 6 2 after_close_1), Ok 3) /\
  get_block_range after_close_1 6 2 = Ok (2, 2) /\
  well_formed (fst (open_block 6 2 after_close_1)) /\
  stitch (fst (open_block 6 2 after_close_1)) = stitch after_close_1.
Proof.
  assert (H1 : well_formed after_close_1) by exact after_close_1_well_formed.
  assert (H2 : 0 <= 2) by lia.
  assert (H3 : open_block 6 2 after_close_1 = (fst (open_block 6 2 after_close_1), Ok 3))
    by (vm_compute; reflexivity).
  assert (H4 : get_block_range after_close_1 6 2 = Ok (2, 2)) by (vm_compute; reflexivity).
  repeat (split; [assumption |]).
  exact (open_block_within_entry_keeps_document 6 2 3 2 after_close_1 _ H1 H2 H3 H4).
Defined.

Lemma open_block_at_entry_start_keeps_document_witness :
  well_formed after_close_1 /\
  0 <= 5 /\
  open_block 2 5 after_close_1 = (fst (open_block 2 5 after_close_1), Ok 2) /\
  line_to_table_index after_close_1 2 = Ok (1, 0) /\
  well_formed (fst (open_block 2 5 after_close_1)) /\
  stitch (fst (open_block 2 5 after_close_1)) = stitch after_close_1.
Proof.
  assert (H1 : well_formed after_close_1) by exact after_close_1_well_formed.
  assert (H2 : 0 <= 5) by lia.
  assert (H3 : open_block 2 5 after_close_1 = (fst (open_block 2 5 after_close_1), Ok 2))
    by (vm_compute; reflexivity).
  assert (H4 : line_to_table_index after_close_1 2 = Ok (1, 0)) by (vm_compute; reflexivity).
  repeat (split; [assumption |]).
  exact (open_block_at_entry_start_keeps_document 2 5 2 1 after_close_1 _ H1 H2 H3 H4).
Defined.


Lemma close_block_idempotent_witness :
  close_block 1 after_open_2_3 = (after_close_1, Ok tt) /\
  close_block 1 after_close_1 = (after_close_1, Ok tt).
Proof.
  assert (H : close_block 1 after_open_2_3 = (after_close_1, Ok tt))
    by (vm_compute; reflexivity).
  split; [exact H | exact (close_block_idempotent 1 after_open_2_3 after_close_1 H)].
Defined.

Lemma close_block_keeps_document_witness :
  well_formed after_close_1 /\
  well_formed (fst (close_block 0 after_close_1)).
Proof.
  assert (H : well_formed after_close_1) by exact after_close_1_well_formed.
  split; [exact H |].
  exact (proj2 (proj2 (close_block_keeps_document 0 after_close_1)) H).
Defined.


Lemma open_block_refused_after_compaction_witness :
  remove_closed_blocks after_close_1
  = (fst (remove_closed_blocks after_close_1), Ok ten_lines) /\
  line_to_table_index after_close_1 6 = Ok (2, 1) /\
  getitem (table after_close_1) 2 = Ok (mkEntry 0 5 5) /\
  e_block (mkEntry 0 5 5) = 0 /\
  stitch after_close_1 = Ok ten_lines /\
  table (fst (remove_closed_blocks after_close_1)) = table after_close_1 /\
  open_block 6 2 (fst (remove_closed_blocks after_close_1))
  = (fst (remove_closed_blocks after_close_1),
     Raise (ValueError "Illegal block request")).
Proof.
  assert (H1 : remove_closed_blocks after_close_1
               = (fst (remove_closed_blocks after_close_1), Ok ten_lines))
    by (vm_compute; reflexivity).
  assert (H2 : line_to_table_index after_close_1 6 = Ok (2, 1)) by (vm_compute; reflexivity).
  assert (H3 : getitem (table after_close_1) 2 = Ok (mkEntry 0 5 5))
    by (vm_compute; reflexivity).
  assert (H4 : e_block (mkEntry 0 5 5) = 0) by reflexivity.
  repeat (split; [assumption |]).
  exact (open_block_refused_after_compaction 6 2 2 1 after_close_1 _ ten_lines _
           H1 H2 H3 H4).
Defined.
